(** * cpp_utils: a model of the C++ header/source emitter of [main.py]

    The Python module builds an object graph of members, methods, structs,
    classes and file pairs and renders it into two texts.  Python [str] values
    are modelled as [string]; the characters the development reasons about are
    the 7-bit ASCII ones, for which [str.lower], [str.upper], [\d] and [[A-Z]]
    are exactly the functions below.  Python lists are modelled as [list]. *)

From Stdlib Require Import String Ascii List Bool Arith Lia Permutation.
Import ListNotations.
Open Scope string_scope.

(** ** Characters and strings *)

Definition LF : ascii := "010"%char.
Definition DQUOTE : ascii := "034"%char.
Definition UNDERSCORE : ascii := "_"%char.

(** The one-character strings the source writes as escapes. *)
Definition nl : string := String LF "".
Definition dquote : string := String DQUOTE "".

Definition is_upper (c : ascii) : bool :=
  (65 <=? nat_of_ascii c)%nat && (nat_of_ascii c <=? 90)%nat.

Definition is_lower (c : ascii) : bool :=
  (97 <=? nat_of_ascii c)%nat && (nat_of_ascii c <=? 122)%nat.

Definition is_digit (c : ascii) : bool :=
  (48 <=? nat_of_ascii c)%nat && (nat_of_ascii c <=? 57)%nat.

Definition is_alnum (c : ascii) : bool :=
  is_upper c || is_lower c || is_digit c.

Definition to_lower (c : ascii) : ascii :=
  if is_upper c then ascii_of_nat (nat_of_ascii c + 32) else c.

Definition to_upper (c : ascii) : ascii :=
  if is_lower c then ascii_of_nat (nat_of_ascii c - 32) else c.

Fixpoint map_chars (f : ascii -> ascii) (s : string) : string :=
  match s with
  | EmptyString => EmptyString
  | String c t => String (f c) (map_chars f t)
  end.

(** [str.lower] and [str.upper]. *)
Definition lower (s : string) : string := map_chars to_lower s.
Definition upper (s : string) : string := map_chars to_upper s.

(** [sep.join(parts)]. *)
Definition join (sep : string) (parts : list string) : string :=
  String.concat sep parts.

(** The truth value of a [str]: the empty string is false. *)
Definition truthy (s : string) : bool := negb (s =? "").

(** ** Regular-expression substitutions used by the normalizer *)

Module Re.

(** [re.sub(p, repl, s)] for a pattern [p] made only of a one-character
    lookbehind and a one-character lookahead.  Such a pattern matches the empty
    string, so every position of [s] (from 0 to [len(s)]) where both assertions
    hold receives [repl] and every character of [s] is kept.  [prev] is the
    character before the position in [s] itself ([None] at the start), the
    lookahead sees the character at the position ([None] at the end). *)
Fixpoint sub_at_positions (lookbehind lookahead : option ascii -> bool)
    (repl : string) (prev : option ascii) (s : string) : string :=
  match s with
  | EmptyString =>
      if lookbehind prev && lookahead None then repl else EmptyString
  | String c t =>
      (if lookbehind prev && lookahead (Some c) then repl else EmptyString)
      ++ String c (sub_at_positions lookbehind lookahead repl (Some c) t)
  end.

(** [(?<!^)]: the position is not the start of the string. *)
Definition not_at_start (prev : option ascii) : bool :=
  match prev with None => false | Some _ => true end.

(** [(?=[A-Z])]. *)
Definition ahead_upper (next : option ascii) : bool :=
  match next with None => false | Some c => is_upper c end.

(** [(?<=\d)] and [(?=\d)]: there is a character there and it is a digit. *)
Definition a_digit (x : option ascii) : bool :=
  match x with None => false | Some c => is_digit c end.

(** [(?<=\D)] and [(?=\D)]: there is a character there and it is no digit. *)
Definition a_non_digit (x : option ascii) : bool :=
  match x with None => false | Some c => negb (is_digit c) end.

(** What a pending run of [run] underscores becomes under
    [re.sub(r'_{2,}', '_', ...)]: a run of two or more is one match and is
    replaced by a single underscore, a shorter run is not matched and stays. *)
Definition flush_run (run : nat) : string :=
  if (2 <=? run)%nat then "_"
  else match run with O => "" | S _ => "_" end.

(** [re.sub(r'_{2,}', '_', s)], scanning [s] with the length of the run of
    underscores read so far. *)
Fixpoint sub_underscore_runs (run : nat) (s : string) : string :=
  match s with
  | EmptyString => flush_run run
  | String c t =>
      if Ascii.eqb c UNDERSCORE then sub_underscore_runs (S run) t
      else flush_run run ++ String c (sub_underscore_runs 0 t)
  end.

End Re.

(** [s.rstrip('_')]. *)
Fixpoint rstrip_underscore (s : string) : string :=
  match s with
  | EmptyString => EmptyString
  | String c t =>
      match rstrip_underscore t with
      | EmptyString => if Ascii.eqb c UNDERSCORE then EmptyString else String c EmptyString
      | r => String c r
      end
  end.

(** ** [camel_to_snake_case] *)

Definition camel_to_snake_case (camel_str : string) : string :=
  let snake_str :=
    Re.sub_at_positions Re.not_at_start Re.ahead_upper "_" None camel_str in
  let snake_str :=
    Re.sub_at_positions Re.a_non_digit Re.a_digit "_" None snake_str in
  let snake_str :=
    Re.sub_at_positions Re.a_digit Re.a_non_digit "_" None snake_str in
  let snake_str := lower snake_str in
  let snake_str := Re.sub_underscore_runs 0 snake_str in
  let snake_str := rstrip_underscore snake_str in
  snake_str.

(** ** [CppType] *)

Module CppType.
Definition INT : string := "int".
Definition FLOAT : string := "float".
Definition DOUBLE : string := "double".
Definition CHAR : string := "char".
Definition STRING : string := "std::string".
Definition all_types : list string := [INT; FLOAT; DOUBLE; CHAR; STRING].
End CppType.

(** ** [CppMember] *)

Module CppMember.

Record t : Type := mk {
  name : string;
  type_name : string;
  value : string
}.

(** [CppMember(name, type_name)]: [value] defaults to the empty string. *)
Definition init (name type_name : string) : t := mk name type_name "".

(** [__str__]. *)
Definition str (self : t) : string :=
  type_name self ++ " " ++ name self
  ++ (if value self =? "" then "" else "= " ++ value self) ++ ";".

End CppMember.

(** ** [CppMethod] *)

Module CppMethod.

Record t : Type := mk {
  name : string;
  return_type : string;
  parameters : string;
  body : string;
  access_modifier : string;
  initializer_list : string;
  define_in_header : bool;
  qualifiers : list string
}.

(** The defaults of [__init__]'s keyword parameters.  The default list of
    qualifiers is one list object shared by every call; no function of the
    module mutates a qualifiers list, so it is the empty list at every call. *)
Definition default_access_modifier : string := "public".
Definition default_initializer_list : string := "".
Definition default_define_in_header : bool := false.
Definition default_qualifiers : list string := [].

(** [CppMethod(name, return_type, parameters, body)], all keywords defaulted. *)
Definition init (name return_type parameters body : string) : t :=
  mk name return_type parameters body default_access_modifier
     default_initializer_list default_define_in_header default_qualifiers.

Definition space_after_return_type (self : t) : string :=
  if negb (return_type self =? "") then " " else "".

Definition qualifier_str (self : t) : string :=
  if negb (List.length (qualifiers self) =? 0)%nat
  then " " ++ join " " (qualifiers self) else "".

Definition declaration (self : t) : string :=
  let space := space_after_return_type self in
  let qualifier_str := qualifier_str self in
  return_type self ++ space ++ name self ++ "(" ++ parameters self ++ ")"
  ++ qualifier_str ++ ";".

Definition get_definition (self : t) (class_name : string) : string :=
  let space := space_after_return_type self in
  let initializer :=
    if truthy (initializer_list self) then " : " ++ initializer_list self else "" in
  let qualifier_str := qualifier_str self in
  let definition := "" in
  let definition :=
    if define_in_header self then
      return_type self ++ space ++ name self ++ "(" ++ parameters self ++ ")"
      ++ initializer ++ qualifier_str ++ " {" ++ nl ++ "    " ++ body self ++ nl ++ "}"
    else
      return_type self ++ space ++ class_name ++ "::" ++ name self
      ++ "(" ++ parameters self ++ ")"
      ++ initializer ++ qualifier_str ++ " {" ++ nl ++ "    " ++ body self ++ nl ++ "}" in
  definition.

End CppMethod.

(** ** The renderer shared by classes and structs *)

(** One turn of the loop of [get_public_and_private_methods_for_header]: the
    two tests are independent [if] statements, each appending to its list. *)
Definition partition_step (class_name : string)
    (acc : list string * list string) (method : CppMethod.t)
    : list string * list string :=
  let '(public_methods, private_methods) := acc in
  let public_methods :=
    if CppMethod.access_modifier method =? "public" then
      if CppMethod.define_in_header method
      then (public_methods ++ [CppMethod.get_definition method class_name])%list
      else (public_methods ++ [CppMethod.declaration method])%list
    else public_methods in
  let private_methods :=
    if CppMethod.access_modifier method =? "private" then
      if CppMethod.define_in_header method
      then (private_methods ++ [CppMethod.get_definition method class_name])%list
      else (private_methods ++ [CppMethod.declaration method])%list
    else private_methods in
  (public_methods, private_methods).

Definition get_public_and_private_methods_for_header (class_name : string)
    (methods : list CppMethod.t) : list string * list string :=
  fold_left (partition_step class_name) methods ([], []).

(** The f-string of [generate_header_content_for_class_or_struct]. *)
Definition header_content_text (is_class : bool) (class_or_struct_name : string)
    (members_str public_methods_str private_methods_str : string) : string :=
  (if is_class then "class" else "struct") ++ " " ++ class_or_struct_name ++ " {" ++ nl
  ++ "public:" ++ nl
  ++ "    " ++ members_str ++ nl
  ++ nl ++ "    " ++ public_methods_str ++ nl
  ++ nl ++ "private:" ++ nl
  ++ "    " ++ private_methods_str ++ nl
  ++ "};" ++ nl ++ nl.

Definition generate_header_content_for_class_or_struct (is_class : bool)
    (class_or_struct_name : string) (members : list CppMember.t)
    (methods : list CppMethod.t) : string :=
  let members_str := join (nl ++ "    ") (map CppMember.str members) in
  let '(public_methods, private_methods) :=
    get_public_and_private_methods_for_header class_or_struct_name methods in
  let public_methods_str := join (nl ++ "    ") public_methods in
  let private_methods_str := join (nl ++ "    ") private_methods in
  header_content_text is_class class_or_struct_name
    members_str public_methods_str private_methods_str.

(** The generator expression of [generate_source_content_for_class_or_struct]:
    the definitions of the methods not defined in the header, in list order. *)
Definition source_definitions (class_or_struct_name : string)
    (methods : list CppMethod.t) : list string :=
  map (fun method => CppMethod.get_definition method class_or_struct_name)
      (filter (fun method => negb (CppMethod.define_in_header method)) methods).

Definition generate_source_content_for_class_or_struct
    (class_or_struct_name : string) (methods : list CppMethod.t) : string :=
  let source_content := "" in
  let definitions_str :=
    join (nl ++ nl) (source_definitions class_or_struct_name methods) in
  let source_content := source_content ++ definitions_str in
  source_content.

(** ** [CppClass] *)

Module CppClass.

Record t : Type := mk {
  name : string;
  members : list CppMember.t;
  methods : list CppMethod.t;
  includes : list string
}.

Definition init (name : string) : t := mk name [] [] [].

Definition add_include (self : t) (include : string) : t :=
  mk (name self) (members self) (methods self) (includes self ++ [include])%list.

Definition add_member (self : t) (member : CppMember.t) : t :=
  mk (name self) (members self ++ [member])%list (methods self) (includes self).

Definition add_method (self : t) (method : CppMethod.t) : t :=
  mk (name self) (members self) (methods self ++ [method])%list (includes self).

(** [add_constructor(parameters, initializer_list, body)]; the source defaults
    [initializer_list] and [body] to the empty string.  The keywords it does not
    pass to [CppMethod] take [CppMethod]'s defaults. *)
Definition add_constructor (self : t) (parameters initializer_list body : string) : t :=
  let constructor_method :=
    CppMethod.mk (name self) "" parameters body
      CppMethod.default_access_modifier initializer_list
      CppMethod.default_define_in_header CppMethod.default_qualifiers in
  add_method self constructor_method.

Definition generate_header_content (self : t) : string :=
  generate_header_content_for_class_or_struct true (name self) (members self) (methods self).

Definition generate_source_content (self : t) : string :=
  generate_source_content_for_class_or_struct (name self) (methods self).

(** [__str__]: the class with every public and private method shown by its
    declaration, whatever its [define_in_header]. *)
Definition str (self : t) : string :=
  let members_str := join (nl ++ "    ") (map CppMember.str (members self)) in
  let public_methods_str :=
    join (nl ++ "    ")
      (map CppMethod.declaration
         (filter (fun method => CppMethod.access_modifier method =? "public")
            (methods self))) in
  let private_methods_str :=
    join (nl ++ "    ")
      (map CppMethod.declaration
         (filter (fun method => CppMethod.access_modifier method =? "private")
            (methods self))) in
  "class " ++ name self ++ " {" ++ nl
  ++ "public:" ++ nl ++ "    " ++ members_str ++ nl ++ nl
  ++ "    " ++ public_methods_str ++ nl
  ++ nl ++ "private:" ++ nl ++ "    " ++ private_methods_str ++ nl
  ++ "};" ++ nl.

End CppClass.

(** ** [CppStruct] *)

Module CppStruct.

Record t : Type := mk {
  name : string;
  members : list CppMember.t;
  methods : list CppMethod.t
}.

Definition init (name : string) : t := mk name [] [].

Definition add_member (self : t) (member : CppMember.t) : t :=
  mk (name self) (members self ++ [member])%list (methods self).

Definition add_method (self : t) (method : CppMethod.t) : t :=
  mk (name self) (members self) (methods self ++ [method])%list.

Definition generate_header_content (self : t) : string :=
  generate_header_content_for_class_or_struct false (name self) (members self) (methods self).

Definition generate_source_content (self : t) : string :=
  generate_source_content_for_class_or_struct (name self) (methods self).

End CppStruct.

(** ** [CppHeaderAndSource] *)

Module CppHeaderAndSource.

Record t : Type := mk {
  name : string;
  includes : list string;
  extra_header_code : list string;
  structs : list CppStruct.t;
  classes : list CppClass.t
}.

Definition init (name : string) : t := mk name [] [] [] [].

Definition add_extra_header_code (self : t) (code : string) : t :=
  mk (name self) (includes self) (extra_header_code self ++ [code])%list
     (structs self) (classes self).

Definition add_include (self : t) (include : string) : t :=
  mk (name self) (includes self ++ [include])%list (extra_header_code self)
     (structs self) (classes self).

Definition add_struct (self : t) (struct : CppStruct.t) : t :=
  mk (name self) (includes self) (extra_header_code self)
     (structs self ++ [struct])%list (classes self).

Definition add_class (self : t) (cls : CppClass.t) : t :=
  mk (name self) (includes self) (extra_header_code self)
     (structs self) (classes self ++ [cls])%list.

Definition guard_name (self : t) : string :=
  upper (camel_to_snake_case (name self)) ++ "_HPP".

(** Each [for] loop is a left fold over the list it walks, the variable it
    updates being the accumulator. *)
Definition generate_header_content (self : t) : string :=
  let header_file_content := "" in
  let guard_name := guard_name self in
  let all_includes := [] in
  let all_includes := (all_includes ++ includes self)%list in
  let header_file_content := header_file_content ++ "#ifndef " ++ guard_name ++ nl in
  let header_file_content := header_file_content ++ "#define " ++ guard_name ++ nl ++ nl in
  let all_includes :=
    fold_left (fun all_includes cls => (all_includes ++ CppClass.includes cls)%list)
      (classes self) all_includes in
  let header_file_content := header_file_content ++ join nl all_includes in
  let header_file_content :=
    fold_left (fun content struct => content ++ CppStruct.generate_header_content struct)
      (structs self) header_file_content in
  let header_file_content :=
    fold_left (fun content header_code => content ++ header_code)
      (extra_header_code self) header_file_content in
  let header_file_content := header_file_content ++ nl ++ nl in
  let header_file_content :=
    fold_left (fun content cls => content ++ CppClass.generate_header_content cls)
      (classes self) header_file_content in
  let header_file_content := header_file_content ++ "#endif // " ++ guard_name in
  header_file_content.

Definition generate_source_content (self : t) : string :=
  let source_content := "#include " ++ dquote ++ name self ++ ".hpp" ++ dquote ++ nl ++ nl in
  let source_content :=
    fold_left (fun content struct => content ++ CppStruct.generate_source_content struct)
      (structs self) source_content in
  let source_content :=
    fold_left (fun content cls => content ++ CppClass.generate_source_content cls)
      (classes self) source_content in
  source_content.

End CppHeaderAndSource.

(** ** The example of the [__main__] block *)

Module Example.

Definition cpp_struct : CppStruct.t :=
  let cpp_struct := CppStruct.init "ExampleStruct" in
  let cpp_struct := CppStruct.add_member cpp_struct (CppMember.init "w" CppType.INT) in
  let cpp_struct := CppStruct.add_member cpp_struct (CppMember.init "z" CppType.INT) in
  CppStruct.add_method cpp_struct (CppMethod.init "add" "int" "" "return w + z;").

Definition cpp_class : CppClass.t :=
  let cpp_class := CppClass.init "ExampleClass" in
  let cpp_class := CppClass.add_member cpp_class (CppMember.init "x" CppType.INT) in
  let cpp_class := CppClass.add_member cpp_class (CppMember.init "y" CppType.FLOAT) in
  let cpp_class := CppClass.add_include cpp_class ("#include <iostream>" ++ nl) in
  CppClass.add_constructor cpp_class "int x, float y" "x(x), y(y)" "".

Definition cpp_header_and_source : CppHeaderAndSource.t :=
  let file := CppHeaderAndSource.init "example_file" in
  let file := CppHeaderAndSource.add_struct file cpp_struct in
  CppHeaderAndSource.add_class file cpp_class.

(** The texts the example prints, line by line. *)
Definition expected_header : string :=
  join nl [
    "#ifndef EXAMPLE_FILE_HPP";
    "#define EXAMPLE_FILE_HPP";
    "";
    "#include <iostream>";
    "struct ExampleStruct {";
    "public:";
    "    int w;";
    "    int z;";
    "";
    "    int add();";
    "";
    "private:";
    "    ";
    "};";
    "";
    "";
    "";
    "class ExampleClass {";
    "public:";
    "    int x;";
    "    float y;";
    "";
    "    ExampleClass(int x, float y);";
    "";
    "private:";
    "    ";
    "};";
    "";
    "#endif // EXAMPLE_FILE_HPP"
  ].

Definition expected_source : string :=
  join nl [
    "#include " ++ dquote ++ "example_file.hpp" ++ dquote;
    "";
    "int ExampleStruct::add() {";
    "    return w + z;";
    "}ExampleClass::ExampleClass(int x, float y) : x(x), y(y) {";
    "    ";
    "}"
  ].

End Example.

(** ** The render operations with their list objects on a heap

    The functions above read the attributes of the objects as values.  To see
    what rendering does to the object graph, this module runs the same code
    with the list objects it mutates in place kept on a heap: the statements
    [x = []], [x.append(s)] and [x.extend(y)] allocate and write heap cells,
    and an attribute that such a statement reads ([includes]) holds the
    address of its list.  The other statements of the render code bind local
    names to immutable [str] values and only iterate the lists they are
    given. *)

Module Py.

Definition loc : Type := nat.

(** The list-of-[str] objects alive, by address. *)
Definition heap : Type := list (list string).
Bind Scope list_scope with heap.

Definition M (A : Type) : Type := heap -> A * heap.

Definition ret {A : Type} (x : A) : M A := fun h => (x, h).

Definition bind {A B : Type} (m : M A) (k : A -> M B) : M B :=
  fun h => let '(x, h') := m h in k x h'.

Notation "x <- m ;; k" := (bind m (fun x => k))
  (at level 61, m at next level, right associativity).
Notation "m ;; k" := (bind m (fun _ => k))
  (at level 61, right associativity).

Fixpoint store (l : loc) (v : list string) (h : heap) : heap :=
  match h, l with
  | [], _ => []
  | _ :: t, O => v :: t
  | x :: t, S l' => x :: store l' v t
  end.

(** [x = []]: a new list object. *)
Definition new_list : M loc :=
  fun h => (List.length h, (h ++ [[]])%list).

(** Reading a list object, as iteration and [join] do. *)
Definition contents (l : loc) : M (list string) :=
  fun h => (nth l h [], h).

(** [x.append(s)]. *)
Definition list_append (l : loc) (s : string) : M unit :=
  fun h => (tt, store l (nth l h [] ++ [s])%list h).

(** [x.extend(y)]. *)
Definition list_extend (l : loc) (src : loc) : M unit :=
  fun h => (tt, store l (nth l h [] ++ nth src h [])%list h).

(** [for x in xs: body]. *)
Fixpoint for_each {A : Type} (xs : list A) (body : A -> M unit) : M unit :=
  match xs with
  | [] => ret tt
  | x :: t => body x ;; for_each t body
  end.

(** [for x in xs: content += f(x)], the local [content] being threaded. *)
Fixpoint for_each_add {A : Type} (xs : list A) (content : string)
    (f : A -> M string) : M string :=
  match xs with
  | [] => ret content
  | x :: t => text <- f x ;; for_each_add t (content ++ text) f
  end.

Definition get_public_and_private_methods_for_header (class_name : string)
    (methods : list CppMethod.t) : M (list string * list string) :=
  public_methods <- new_list ;;
  private_methods <- new_list ;;
  for_each methods (fun method =>
    (if CppMethod.access_modifier method =? "public" then
       if CppMethod.define_in_header method
       then list_append public_methods (CppMethod.get_definition method class_name)
       else list_append public_methods (CppMethod.declaration method)
     else ret tt) ;;
    (if CppMethod.access_modifier method =? "private" then
       if CppMethod.define_in_header method
       then list_append private_methods (CppMethod.get_definition method class_name)
       else list_append private_methods (CppMethod.declaration method)
     else ret tt)) ;;
  public_strs <- contents public_methods ;;
  private_strs <- contents private_methods ;;
  ret (public_strs, private_strs).

Definition generate_header_content_for_class_or_struct (is_class : bool)
    (class_or_struct_name : string) (members : list CppMember.t)
    (methods : list CppMethod.t) : M string :=
  let members_str := join (nl ++ "    ") (map CppMember.str members) in
  lists <- get_public_and_private_methods_for_header class_or_struct_name methods ;;
  let public_methods_str := join (nl ++ "    ") (fst lists) in
  let private_methods_str := join (nl ++ "    ") (snd lists) in
  ret (header_content_text is_class class_or_struct_name
         members_str public_methods_str private_methods_str).

(** No list is created or written here: the definitions come from a generator
    expression handed to [join]. *)
Definition generate_source_content_for_class_or_struct
    (class_or_struct_name : string) (methods : list CppMethod.t) : M string :=
  let source_content := "" in
  let definitions_str :=
    join (nl ++ nl) (source_definitions class_or_struct_name methods) in
  ret (source_content ++ definitions_str).

(** A [CppClass] object: its [includes] attribute is the address of a list. *)
Record class_obj : Type := mk_class {
  c_name : string;
  c_members : list CppMember.t;
  c_methods : list CppMethod.t;
  c_includes : loc
}.

(** A [CppHeaderAndSource] object. *)
Record file_obj : Type := mk_file {
  f_name : string;
  f_includes : loc;
  f_extra_header_code : list string;
  f_structs : list CppStruct.t;
  f_classes : list class_obj
}.

Definition struct_generate_header_content (self : CppStruct.t) : M string :=
  generate_header_content_for_class_or_struct false
    (CppStruct.name self) (CppStruct.members self) (CppStruct.methods self).

Definition struct_generate_source_content (self : CppStruct.t) : M string :=
  generate_source_content_for_class_or_struct
    (CppStruct.name self) (CppStruct.methods self).

Definition class_generate_header_content (self : class_obj) : M string :=
  generate_header_content_for_class_or_struct true
    (c_name self) (c_members self) (c_methods self).

Definition class_generate_source_content (self : class_obj) : M string :=
  generate_source_content_for_class_or_struct (c_name self) (c_methods self).

Definition generate_header_content (self : file_obj) : M string :=
  let header_file_content := "" in
  let guard_name := upper (camel_to_snake_case (f_name self)) ++ "_HPP" in
  all_includes <- new_list ;;
  list_extend all_includes (f_includes self) ;;
  let header_file_content := header_file_content ++ "#ifndef " ++ guard_name ++ nl in
  let header_file_content := header_file_content ++ "#define " ++ guard_name ++ nl ++ nl in
  for_each (f_classes self) (fun cls => list_extend all_includes (c_includes cls)) ;;
  include_strs <- contents all_includes ;;
  let header_file_content := header_file_content ++ join nl include_strs in
  header_file_content <-
    for_each_add (f_structs self) header_file_content struct_generate_header_content ;;
  header_file_content <-
    for_each_add (f_extra_header_code self) header_file_content (fun code => ret code) ;;
  let header_file_content := header_file_content ++ nl ++ nl in
  header_file_content <-
    for_each_add (f_classes self) header_file_content class_generate_header_content ;;
  let header_file_content := header_file_content ++ "#endif // " ++ guard_name in
  ret header_file_content.

Definition generate_source_content (self : file_obj) : M string :=
  let source_content :=
    "#include " ++ dquote ++ f_name self ++ ".hpp" ++ dquote ++ nl ++ nl in
  source_content <-
    for_each_add (f_structs self) source_content struct_generate_source_content ;;
  source_content <-
    for_each_add (f_classes self) source_content class_generate_source_content ;;
  ret source_content.

(** The object graph a heap holds for an object: every address replaced by
    the list found there. *)
Definition class_at (h : heap) (o : class_obj) : CppClass.t :=
  CppClass.mk (c_name o) (c_members o) (c_methods o) (nth (c_includes o) h []).

Definition file_at (h : heap) (o : file_obj) : CppHeaderAndSource.t :=
  CppHeaderAndSource.mk (f_name o) (nth (f_includes o) h [])
    (f_extra_header_code o) (f_structs o) (map (class_at h) (f_classes o)).

(** The lists of the object are lists of the heap. *)
Definition allocated (h : heap) (o : file_obj) : Prop :=
  f_includes o < List.length h
  /\ Forall (fun cls => c_includes cls < List.length h) (f_classes o).

(** What a render operation may do to the heap: allocate.  Every list that was
    there is still there, at its address and with its elements. *)
Definition only_allocates (h h' : heap) : Prop :=
  exists fresh : heap, h' = (h ++ fresh)%list.

(** Running [op] twice in a row from [h]: the two results are equal and
    neither run touches a list that existed before it. *)
Definition repeatable {A : Type} (op : M A) (h : heap) : Prop :=
  fst (op (snd (op h))) = fst (op h)
  /\ only_allocates h (snd (op h))
  /\ only_allocates (snd (op h)) (snd (op (snd (op h)))).

(** The example of [__main__] as objects on a heap: address 0 holds the
    file's includes, address 1 the class's. *)
Definition example_heap : heap := [[]; ["#include <iostream>" ++ nl]].

Definition example_class : class_obj :=
  mk_class "ExampleClass" (CppClass.members Example.cpp_class)
    (CppClass.methods Example.cpp_class) 1.

Definition example_file : file_obj :=
  mk_file "example_file" 0 [] [Example.cpp_struct] [example_class].

End Py.

(** ** Notions the statements are written with *)

(** The concatenation of texts with nothing between them. *)
Definition concat_all (parts : list string) : string :=
  fold_right String.append "" parts.

(** [s] occurs in [t] as a contiguous substring. *)
Definition occurs_in (s t : string) : Prop :=
  exists pre post : string, t = pre ++ s ++ post.

Fixpoint starts_with (s t : string) : bool :=
  match s, t with
  | EmptyString, _ => true
  | String _ _, EmptyString => false
  | String a s', String b t' => Ascii.eqb a b && starts_with s' t'
  end.

(** The decision procedure for [occurs_in] (Python's [s in t]). *)
Fixpoint occursb (s t : string) : bool :=
  starts_with s t
  || match t with
     | EmptyString => false
     | String _ t' => occursb s t'
     end.

Fixpoint count_char (c : ascii) (s : string) : nat :=
  match s with
  | EmptyString => 0
  | String a t => (if Ascii.eqb a c then 1 else 0) + count_char c t
  end.

(** Every character of [s] satisfies [p]. *)
Definition all_chars (p : ascii -> bool) (s : string) : bool :=
  forallb p (list_ascii_of_string s).

Definition leading_underscore (s : string) : Prop :=
  exists rest : string, s = "_" ++ rest.

Definition trailing_underscore (s : string) : Prop :=
  exists rest : string, s = rest ++ "_".

(** No two neighbouring characters of [s] are both underscores. *)
Fixpoint no_double_underscore (s : string) : bool :=
  match s with
  | EmptyString => true
  | String a t =>
      match t with
      | EmptyString => true
      | String b _ =>
          negb (Ascii.eqb a UNDERSCORE && Ascii.eqb b UNDERSCORE)
          && no_double_underscore t
      end
  end.

(** The text a method contributes to the header of its class or struct. *)
Definition header_text (class_name : string) (method : CppMethod.t) : string :=
  if CppMethod.define_in_header method
  then CppMethod.get_definition method class_name
  else CppMethod.declaration method.

Definition is_public (method : CppMethod.t) : bool :=
  CppMethod.access_modifier method =? "public".

Definition is_private (method : CppMethod.t) : bool :=
  CppMethod.access_modifier method =? "private".

(** The initializer-list suffix of a definition. *)
Definition initializer_suffix (method : CppMethod.t) : string :=
  if CppMethod.initializer_list method =? "" then ""
  else " : " ++ CppMethod.initializer_list method.

(** The braces and the body, laid out as the source does. *)
Definition braced_body (method : CppMethod.t) : string :=
  " {" ++ nl ++ "    " ++ CppMethod.body method ++ nl ++ "}".

(** The inline and the out-of-line definition texts, written out. *)
Definition inline_definition (method : CppMethod.t) : string :=
  CppMethod.return_type method ++ CppMethod.space_after_return_type method
  ++ CppMethod.name method ++ "(" ++ CppMethod.parameters method ++ ")"
  ++ initializer_suffix method ++ CppMethod.qualifier_str method
  ++ braced_body method.

Definition out_of_line_definition (class_name : string) (method : CppMethod.t) : string :=
  CppMethod.return_type method ++ CppMethod.space_after_return_type method
  ++ class_name ++ "::" ++ CppMethod.name method
  ++ "(" ++ CppMethod.parameters method ++ ")"
  ++ initializer_suffix method ++ CppMethod.qualifier_str method
  ++ braced_body method.

(** The parenthesised parameter list followed by the qualifiers, as the
    declaration prints them. *)
Definition signature_tail (method : CppMethod.t) : string :=
  "(" ++ CppMethod.parameters method ++ ")" ++ CppMethod.qualifier_str method.

(** The definition text as the specification words it: the prefix of the
    declaration (return type, its space, the name, qualified or not, the
    parenthesised parameters, the qualifiers), then the initializer-list
    suffix, then the braces around the body.  The specification is silent on
    the line break and indentation around the body; the source's are kept. *)
Definition definition_as_specified (method : CppMethod.t) (class_name : string) : string :=
  CppMethod.return_type method ++ CppMethod.space_after_return_type method
  ++ (if CppMethod.define_in_header method then CppMethod.name method
      else class_name ++ "::" ++ CppMethod.name method)
  ++ signature_tail method
  ++ initializer_suffix method
  ++ braced_body method.

(** A constructor with an initializer list and a qualifier. *)
Definition noexcept_constructor : CppMethod.t :=
  CppMethod.mk "Foo" "" "int x" "" "public" "x(x)" false ["noexcept"].

(** [s] with every underscore taken out. *)
Fixpoint strip_underscores (s : string) : string :=
  match s with
  | EmptyString => EmptyString
  | String c t =>
      if Ascii.eqb c UNDERSCORE then strip_underscores t
      else String c (strip_underscores t)
  end.

Definition is_underscore (c : ascii) : bool := Ascii.eqb c UNDERSCORE.

(** Every pair of neighbouring characters of [s] satisfies [p]; [prev] is the
    character before [s], if there is one. *)
Fixpoint chain (p : ascii -> ascii -> bool) (prev : option ascii) (s : string) : bool :=
  match s with
  | EmptyString => true
  | String c t =>
      match prev with None => true | Some a => p a c end && chain p (Some c) t
  end.

(** A digit and a non-digit stand next to each other only when the non-digit
    is an underscore. *)
Definition fenced (a b : ascii) : bool :=
  Bool.eqb (is_digit a) (is_digit b) || is_underscore a || is_underscore b.

Definition digits_fenced (s : string) : bool := chain fenced None s.

(** The shape of a snake-case identifier: no upper-case letter, no two
    underscores in a row, digits fenced off by underscores, no underscore at
    the end. *)
Definition snake_normal (s : string) : Prop :=
  all_chars (fun c => negb (is_upper c)) s = true
  /\ no_double_underscore s = true
  /\ digits_fenced s = true
  /\ ~ trailing_underscore s.

(** Where the pattern made of [lookbehind] and [lookahead] matches between
    [a] and [b], one of the two is an underscore. *)
Definition fenced_where (lookbehind lookahead : option ascii -> bool)
    (a b : ascii) : bool :=
  negb (lookbehind (Some a) && lookahead (Some b))
  || is_underscore a || is_underscore b.

Definition not_both_underscores (a b : ascii) : bool :=
  negb (Ascii.eqb a UNDERSCORE && Ascii.eqb b UNDERSCORE).

(** The characters of a C macro name written in upper case. *)
Definition is_guard_char (c : ascii) : bool :=
  is_upper c || is_digit c || is_underscore c.

(** The characters of an identifier. *)
Definition is_identifier_char (c : ascii) : bool :=
  is_alnum c || is_underscore c.

(** ** Strings and folds *)

Lemma append_assoc (a b c : string) : (a ++ b) ++ c = a ++ (b ++ c).
Proof. induction a as [|x a IH]; simpl; [reflexivity | now rewrite IH]. Qed.

Lemma append_empty_r (s : string) : s ++ "" = s.
Proof. induction s as [|x s IH]; simpl; [reflexivity | now rewrite IH]. Qed.

Lemma chars_append (a b : string) :
  list_ascii_of_string (a ++ b) = (list_ascii_of_string a ++ list_ascii_of_string b)%list.
Proof. induction a as [|x a IH]; simpl; [reflexivity | now rewrite IH]. Qed.

Lemma count_char_append (c : ascii) (a b : string) :
  count_char c (a ++ b) = count_char c a + count_char c b.
Proof. induction a as [|x a IH]; simpl; [reflexivity | rewrite IH; lia]. Qed.

Lemma concat_all_app (xs ys : list string) :
  concat_all (xs ++ ys) = concat_all xs ++ concat_all ys.
Proof.
  induction xs as [|x xs IH]; simpl; [reflexivity|].
  now rewrite IH, append_assoc.
Qed.

(** A loop [for x in xs: content += f(x)] appends the texts in list order. *)
Lemma fold_left_add {A : Type} (f : A -> string) (xs : list A) (content : string) :
  fold_left (fun content x => content ++ f x) xs content
  = content ++ concat_all (map f xs).
Proof.
  revert content; induction xs as [|x xs IH]; intros content; simpl.
  - now rewrite append_empty_r.
  - now rewrite IH, append_assoc.
Qed.

(** A loop [for x in xs: acc.extend(f(x))] appends the lists in list order. *)
Lemma fold_left_extend {A B : Type} (f : A -> list B) (xs : list A) (acc : list B) :
  fold_left (fun acc x => (acc ++ f x)%list) xs acc = (acc ++ flat_map f xs)%list.
Proof.
  revert acc; induction xs as [|x xs IH]; intros acc; simpl.
  - now rewrite app_nil_r.
  - now rewrite IH, <- app_assoc.
Qed.

Lemma starts_with_spec (s t : string) :
  starts_with s t = true <-> exists post, t = s ++ post.
Proof.
  revert t; induction s as [|a s IH]; intros t; simpl.
  - split; [intros _; now exists t | reflexivity].
  - destruct t as [|b t].
    + split; [discriminate | intros [post H]; discriminate].
    + rewrite andb_true_iff, IH, Ascii.eqb_eq. split.
      * intros [-> [post ->]]. now exists post.
      * intros [post H]. injection H as -> ->. split; [reflexivity | now exists post].
Qed.

Lemma occursb_spec (s t : string) : occursb s t = true <-> occurs_in s t.
Proof.
  unfold occurs_in. induction t as [|b t IH].
  - simpl. rewrite orb_false_r, starts_with_spec. split.
    + intros [post H]. now exists "", post.
    + intros [[|x pre] [post H]]; [now exists post | discriminate].
  - cbn [occursb]. rewrite orb_true_iff, starts_with_spec, IH. split.
    + intros [[post H] | [pre [post H]]].
      * now exists "", post.
      * exists (String b pre), post. simpl. now rewrite H.
    + intros [[|x pre] [post H]].
      * left. now exists post.
      * right. simpl in H. injection H as -> ->. now exists pre, post.
Qed.

(** ** Members *)

(** C7. Rendering a member gives [<type_name> <name>;] when its value is
    empty and [<type_name> <name>= <value>;], with no space before the equals
    sign, when it is not; the rendering adds no line break of its own, so the
    text is one line whenever the three fields hold none. *)
Theorem member_str_one_line (member : CppMember.t) :
  (CppMember.value member = "" ->
     CppMember.str member
     = CppMember.type_name member ++ " " ++ CppMember.name member ++ ";")
  /\ (CppMember.value member <> "" ->
     CppMember.str member
     = CppMember.type_name member ++ " " ++ CppMember.name member
       ++ "= " ++ CppMember.value member ++ ";")
  /\ count_char LF (CppMember.str member)
     = count_char LF (CppMember.type_name member)
       + count_char LF (CppMember.name member)
       + count_char LF (CppMember.value member).
Proof.
  destruct member as [n t v]; unfold CppMember.str; simpl.
  split; [| split].
  - intros ->. reflexivity.
  - intros Hv. apply String.eqb_neq in Hv. now rewrite Hv.
  - destruct (String.eqb_spec v "") as [-> | _];
      repeat (rewrite count_char_append; cbn); lia.
Qed.

Lemma member_str_one_line_witness :
  CppMember.str (CppMember.mk "x" "int" "") = "int x;"
  /\ CppMember.str (CppMember.mk "x" "int" "5") = "int x= 5;".
Proof.
  split.
  - exact (proj1 (member_str_one_line (CppMember.mk "x" "int" "")) eq_refl).
  - refine (proj1 (proj2 (member_str_one_line (CppMember.mk "x" "int" "5"))) _).
    discriminate.
Defined.

(** ** Methods *)

Lemma truthy_initializer (method : CppMethod.t) :
  (if truthy (CppMethod.initializer_list method)
   then " : " ++ CppMethod.initializer_list method else "")
  = initializer_suffix method.
Proof.
  unfold truthy, initializer_suffix.
  now destruct (CppMethod.initializer_list method =? "").
Qed.

(** What [get_definition] returns in each placement. *)
Lemma get_definition_inline (method : CppMethod.t) (class_name : string) :
  CppMethod.define_in_header method = true ->
  CppMethod.get_definition method class_name = inline_definition method.
Proof.
  intros H. unfold CppMethod.get_definition, inline_definition, braced_body.
  rewrite H, truthy_initializer. reflexivity.
Qed.

Lemma get_definition_out_of_line (method : CppMethod.t) (class_name : string) :
  CppMethod.define_in_header method = false ->
  CppMethod.get_definition method class_name = out_of_line_definition class_name method.
Proof.
  intros H. unfold CppMethod.get_definition, out_of_line_definition, braced_body.
  rewrite H, truthy_initializer. reflexivity.
Qed.

(** The declaration ends with the parameter list and the qualifiers. *)
Lemma declaration_signature_tail (method : CppMethod.t) :
  CppMethod.declaration method
  = CppMethod.return_type method ++ CppMethod.space_after_return_type method
    ++ CppMethod.name method ++ signature_tail method ++ ";".
Proof.
  unfold CppMethod.declaration, signature_tail. now rewrite ?append_assoc.
Qed.

Lemma qualifier_str_nil (method : CppMethod.t) :
  CppMethod.qualifiers method = [] -> CppMethod.qualifier_str method = "".
Proof. unfold CppMethod.qualifier_str. now intros ->. Qed.

Lemma initializer_suffix_empty (method : CppMethod.t) :
  CppMethod.initializer_list method = "" -> initializer_suffix method = "".
Proof. unfold initializer_suffix. now intros ->. Qed.

(** Where the source and the specified form of a definition agree: on every
    method that has no initializer list or no qualifier. *)
Lemma get_definition_as_specified (method : CppMethod.t) (class_name : string) :
  CppMethod.initializer_list method = "" \/ CppMethod.qualifiers method = [] ->
  CppMethod.get_definition method class_name = definition_as_specified method class_name.
Proof.
  intros H. unfold definition_as_specified, signature_tail.
  destruct (CppMethod.define_in_header method) eqn:E.
  - rewrite (get_definition_inline _ _ E). unfold inline_definition.
    destruct H as [H | H].
    + rewrite (initializer_suffix_empty _ H). simpl. now rewrite ?append_assoc.
    + rewrite (qualifier_str_nil _ H). simpl. now rewrite ?append_assoc, ?append_empty_r.
  - rewrite (get_definition_out_of_line _ _ E). unfold out_of_line_definition.
    destruct H as [H | H].
    + rewrite (initializer_suffix_empty _ H). simpl. now rewrite ?append_assoc.
    + rewrite (qualifier_str_nil _ H). simpl. now rewrite ?append_assoc, ?append_empty_r.
Qed.

(** On those methods the parameter list and qualifiers of the declaration
    occur in the definition as they stand. *)
Lemma signature_tail_in_definition (method : CppMethod.t) (class_name : string) :
  CppMethod.initializer_list method = "" \/ CppMethod.qualifiers method = [] ->
  occurs_in (signature_tail method) (CppMethod.get_definition method class_name).
Proof.
  intros H. rewrite (get_definition_as_specified _ _ H).
  unfold definition_as_specified, occurs_in.
  exists (CppMethod.return_type method ++ CppMethod.space_after_return_type method
          ++ (if CppMethod.define_in_header method then CppMethod.name method
              else class_name ++ "::" ++ CppMethod.name method)),
         (initializer_suffix method ++ braced_body method).
  now rewrite ?append_assoc.
Qed.

(** C4. The source at a constructor with both an initializer list and a
    qualifier: [get_definition] prints the initializer list before the
    qualifier, where the specified form prints the qualifier, as part of the
    declaration's prefix, before the initializer list. *)
Theorem get_definition_initializer_before_qualifiers :
  CppMethod.get_definition noexcept_constructor "Foo"
  = "Foo::Foo(int x) : x(x) noexcept {" ++ nl ++ "    " ++ nl ++ "}"
  /\ definition_as_specified noexcept_constructor "Foo"
  = "Foo::Foo(int x) noexcept : x(x) {" ++ nl ++ "    " ++ nl ++ "}"
  /\ CppMethod.get_definition noexcept_constructor "Foo"
  <> definition_as_specified noexcept_constructor "Foo".
Proof.
  split; [reflexivity | split; [reflexivity | ]].
  intros H. apply String.eqb_eq in H. vm_compute in H. discriminate.
Qed.

(** C5. The source at the same constructor: its declaration is
    [Foo(int x) noexcept;], and the parameter list and qualifier it shows,
    [(int x) noexcept], occur nowhere in its definition, where the initializer
    list stands between the two: each of them occurs there, the two together
    do not. *)
Theorem declaration_signature_absent_from_definition :
  CppMethod.declaration noexcept_constructor = "Foo(int x) noexcept;"
  /\ signature_tail noexcept_constructor = "(int x) noexcept"
  /\ occurs_in (signature_tail noexcept_constructor)
       (CppMethod.declaration noexcept_constructor)
  /\ ~ occurs_in (signature_tail noexcept_constructor)
       (CppMethod.get_definition noexcept_constructor "Foo")
  /\ occurs_in "(int x)" (CppMethod.get_definition noexcept_constructor "Foo")
  /\ occurs_in " noexcept" (CppMethod.get_definition noexcept_constructor "Foo").
Proof.
  split; [reflexivity | split; [reflexivity | split; [| split; [| split]]]].
  - apply occursb_spec. reflexivity.
  - intros H. apply occursb_spec in H. vm_compute in H. discriminate.
  - apply occursb_spec. reflexivity.
  - apply occursb_spec. reflexivity.
Qed.

(** ** The public/private partition *)

Lemma partition_step_spec (class_name : string) (public_methods private_methods : list string)
    (method : CppMethod.t) :
  partition_step class_name (public_methods, private_methods) method
  = ((public_methods
      ++ if is_public method then [header_text class_name method] else [])%list,
     (private_methods
      ++ if is_private method then [header_text class_name method] else [])%list).
Proof.
  unfold partition_step, is_public, is_private, header_text.
  destruct (CppMethod.access_modifier method =? "public"),
           (CppMethod.access_modifier method =? "private"),
           (CppMethod.define_in_header method);
    now rewrite ?app_nil_r.
Qed.

(** The loop, started from any two lists. *)
Lemma partition_fold (class_name : string) (methods : list CppMethod.t)
    (public_methods private_methods : list string) :
  fold_left (partition_step class_name) methods (public_methods, private_methods)
  = ((public_methods ++ map (header_text class_name) (filter is_public methods))%list,
     (private_methods ++ map (header_text class_name) (filter is_private methods))%list).
Proof.
  revert public_methods private_methods.
  induction methods as [|method methods IH]; intros public_methods private_methods.
  - simpl. now rewrite !app_nil_r.
  - cbn [fold_left filter]. rewrite partition_step_spec, IH.
    destruct (is_public method), (is_private method); cbn [map];
      now rewrite <- !app_assoc.
Qed.

Lemma partition_spec (class_name : string) (methods : list CppMethod.t) :
  get_public_and_private_methods_for_header class_name methods
  = (map (header_text class_name) (filter is_public methods),
     map (header_text class_name) (filter is_private methods)).
Proof. unfold get_public_and_private_methods_for_header. now rewrite partition_fold. Qed.

Lemma public_not_private (method : CppMethod.t) :
  is_public method = true -> is_private method = false.
Proof.
  unfold is_public, is_private. intros H. apply String.eqb_eq in H. now rewrite H.
Qed.

(** When every method is public or private, the two filters split the list. *)
Lemma public_private_split (methods : list CppMethod.t) :
  Forall (fun method => is_public method = true \/ is_private method = true) methods ->
  Permutation (filter is_public methods ++ filter is_private methods) methods.
Proof.
  induction 1 as [|method methods Hm _ IH]; simpl; [constructor|].
  destruct (is_public method) eqn:Epub.
  - rewrite (public_not_private _ Epub). simpl. now constructor.
  - destruct Hm as [Hm | Hm]; [discriminate|]. rewrite Hm.
    apply Permutation_sym, Permutation_cons_app, Permutation_sym, IH.
Qed.

(** C3. The partition function returns, in list order, the header texts of
    the public methods and those of the private methods, the header text of a
    method being its inline definition when [define_in_header] is true and its
    declaration when it is false.  When every method is public or private the
    two sequences together hold exactly the texts of the whole list; the empty
    list gives two empty sequences; a method with another access modifier is
    in neither sequence and the function returns as if it were not in the
    list. *)
Theorem partition_by_access_modifier (class_name : string) (methods : list CppMethod.t) :
  get_public_and_private_methods_for_header class_name methods
  = (map (header_text class_name) (filter is_public methods),
     map (header_text class_name) (filter is_private methods))
  /\ (forall method,
        (CppMethod.define_in_header method = true ->
           header_text class_name method = inline_definition method)
        /\ (CppMethod.define_in_header method = false ->
           header_text class_name method = CppMethod.declaration method))
  /\ (Forall (fun method => CppMethod.access_modifier method = "public"
                            \/ CppMethod.access_modifier method = "private") methods ->
      Permutation
        (fst (get_public_and_private_methods_for_header class_name methods)
         ++ snd (get_public_and_private_methods_for_header class_name methods))
        (map (header_text class_name) methods))
  /\ get_public_and_private_methods_for_header class_name [] = ([], [])
  /\ (forall before method after,
        CppMethod.access_modifier method <> "public" ->
        CppMethod.access_modifier method <> "private" ->
        get_public_and_private_methods_for_header class_name (before ++ method :: after)
        = get_public_and_private_methods_for_header class_name (before ++ after)).
Proof.
  split; [apply partition_spec|]. split; [|split; [|split]].
  - intros method. unfold header_text. split; intros H; rewrite H.
    + now apply get_definition_inline.
    + reflexivity.
  - intros Hall. rewrite partition_spec. cbn [fst snd].
    rewrite <- map_app. apply Permutation_map, public_private_split.
    eapply Forall_impl; [|exact Hall].
    intros method [H | H]; [left | right];
      unfold is_public, is_private; rewrite H; reflexivity.
  - reflexivity.
  - intros before method after Hpub Hpriv. rewrite !partition_spec, !filter_app.
    cbn [filter]. unfold is_public at 2, is_private at 2.
    apply String.eqb_neq in Hpub, Hpriv. now rewrite Hpub, Hpriv.
Qed.

Lemma partition_by_access_modifier_witness :
  Permutation
    (fst (get_public_and_private_methods_for_header "S"
            [CppMethod.mk "f" "int" "" "return 1;" "private" "" true [];
             CppMethod.init "g" "void" "int a" ""])
     ++ snd (get_public_and_private_methods_for_header "S"
            [CppMethod.mk "f" "int" "" "return 1;" "private" "" true [];
             CppMethod.init "g" "void" "int a" ""]))
    (map (header_text "S")
       [CppMethod.mk "f" "int" "" "return 1;" "private" "" true [];
        CppMethod.init "g" "void" "int a" ""])
  /\ get_public_and_private_methods_for_header "S"
       ([CppMethod.init "g" "void" "int a" ""]
        ++ CppMethod.mk "h" "int" "" "return 2;" "protected" "" false []
        :: [CppMethod.mk "f" "int" "" "return 1;" "private" "" true []])
     = get_public_and_private_methods_for_header "S"
       ([CppMethod.init "g" "void" "int a" ""]
        ++ [CppMethod.mk "f" "int" "" "return 1;" "private" "" true []]).
Proof.
  split.
  - refine (proj1 (proj2 (proj2 (partition_by_access_modifier "S" _))) _).
    constructor; [right; reflexivity | constructor; [left; reflexivity | constructor]].
  - refine (proj2 (proj2 (proj2 (proj2 (partition_by_access_modifier "S" [])))) _ _ _ _ _);
      discriminate.
Defined.

(** ** Source fragments and the constructor helper *)

Lemma source_definitions_out_of_line (class_name : string) (methods : list CppMethod.t) :
  source_definitions class_name methods
  = map (out_of_line_definition class_name)
      (filter (fun method => negb (CppMethod.define_in_header method)) methods).
Proof.
  unfold source_definitions. apply map_ext_in.
  intros method Hin. apply filter_In in Hin. destruct Hin as [_ Hin].
  apply get_definition_out_of_line. now destruct (CppMethod.define_in_header method).
Qed.

Lemma source_fragment_spec (class_name : string) (methods : list CppMethod.t) :
  generate_source_content_for_class_or_struct class_name methods
  = join (nl ++ nl)
      (map (out_of_line_definition class_name)
         (filter (fun method => negb (CppMethod.define_in_header method)) methods)).
Proof.
  unfold generate_source_content_for_class_or_struct.
  now rewrite source_definitions_out_of_line.
Qed.

(** C8. The source render is the self-include [#include "<name>.hpp"] and a
    blank line, then the source fragment of every struct and then of every
    class, in list order and with nothing between them; the source fragment
    of a struct or class is the out-of-line definitions of those of its
    methods whose [define_in_header] is false, in list order whatever their
    access modifier, joined by a blank line. *)
Theorem source_assembly (self : CppHeaderAndSource.t) :
  CppHeaderAndSource.generate_source_content self
  = "#include " ++ dquote ++ CppHeaderAndSource.name self ++ ".hpp" ++ dquote ++ nl ++ nl
    ++ concat_all (map CppStruct.generate_source_content (CppHeaderAndSource.structs self))
    ++ concat_all (map CppClass.generate_source_content (CppHeaderAndSource.classes self))
  /\ (forall struct : CppStruct.t,
        CppStruct.generate_source_content struct
        = join (nl ++ nl)
            (map (out_of_line_definition (CppStruct.name struct))
               (filter (fun method => negb (CppMethod.define_in_header method))
                  (CppStruct.methods struct))))
  /\ (forall cls : CppClass.t,
        CppClass.generate_source_content cls
        = join (nl ++ nl)
            (map (out_of_line_definition (CppClass.name cls))
               (filter (fun method => negb (CppMethod.define_in_header method))
                  (CppClass.methods cls)))).
Proof.
  split; [|split].
  - unfold CppHeaderAndSource.generate_source_content.
    rewrite !fold_left_add. now rewrite ?append_assoc.
  - intros struct. apply source_fragment_spec.
  - intros cls. apply source_fragment_spec.
Qed.

(** C9. [add_constructor] appends one method to the methods of the class and
    changes nothing else.  That method bears the name of the class and an
    empty return type, and the given parameters, initializer list and body; it
    is public, not defined in the header and without qualifiers.  So the
    public sequence of the header gains its declaration [<Name>(<parameters>);],
    the private sequence is as before, and the definitions of the source
    fragment gain its out-of-line definition [<Name>::<Name>(...)]. *)
Theorem add_constructor_spec (self : CppClass.t) (parameters initializer_list body : string) :
  exists constructor : CppMethod.t,
    CppClass.add_constructor self parameters initializer_list body
    = CppClass.mk (CppClass.name self) (CppClass.members self)
        (CppClass.methods self ++ [constructor]) (CppClass.includes self)
    /\ CppMethod.name constructor = CppClass.name self
    /\ CppMethod.return_type constructor = ""
    /\ CppMethod.parameters constructor = parameters
    /\ CppMethod.initializer_list constructor = initializer_list
    /\ CppMethod.body constructor = body
    /\ CppMethod.access_modifier constructor = "public"
    /\ CppMethod.define_in_header constructor = false
    /\ CppMethod.qualifiers constructor = []
    /\ get_public_and_private_methods_for_header (CppClass.name self)
         (CppClass.methods (CppClass.add_constructor self parameters initializer_list body))
       = ((fst (get_public_and_private_methods_for_header (CppClass.name self)
                  (CppClass.methods self))
           ++ [(CppClass.name self ++ "(" ++ parameters ++ ");")%string])%list,
          snd (get_public_and_private_methods_for_header (CppClass.name self)
                 (CppClass.methods self)))
    /\ source_definitions (CppClass.name self)
         (CppClass.methods (CppClass.add_constructor self parameters initializer_list body))
       = (source_definitions (CppClass.name self) (CppClass.methods self)
          ++ [(CppClass.name self ++ "::" ++ CppClass.name self ++ "(" ++ parameters ++ ")"
               ++ (if initializer_list =? "" then "" else " : " ++ initializer_list)
               ++ " {" ++ nl ++ "    " ++ body ++ nl ++ "}")%string])%list.
Proof.
  eexists. split; [reflexivity|]. repeat (split; [reflexivity|]). split.
  - unfold CppClass.add_constructor, CppClass.add_method. cbn [CppClass.methods].
    rewrite !partition_spec, !filter_app, !map_app. cbn. now rewrite app_nil_r.
  - unfold CppClass.add_constructor, CppClass.add_method. cbn [CppClass.methods].
    unfold source_definitions. rewrite filter_app, map_app. cbn [filter map].
    cbn [CppMethod.define_in_header CppMethod.default_define_in_header negb map].
    f_equal. f_equal. unfold CppMethod.get_definition, truthy. cbn.
    now destruct (initializer_list =? "").
Qed.

(** ** The file pair *)

(** C2. The header render is, in this order: the include-guard lines
    [#ifndef <G>] and [#define <G>] and a blank line; the global includes
    followed by the includes of every class, in list order, joined by line
    breaks; the header fragment of every struct; every extra header code
    block; a spacer of two line breaks; the header fragment of every class;
    and the closing [#endif // <G>].  The guard token [<G>] is the name of
    the file pair put in snake case, then in upper case, followed by [_HPP]. *)
Theorem header_assembly_order (self : CppHeaderAndSource.t) :
  let G := upper (camel_to_snake_case (CppHeaderAndSource.name self)) ++ "_HPP" in
  CppHeaderAndSource.generate_header_content self
  = "#ifndef " ++ G ++ nl
    ++ "#define " ++ G ++ nl ++ nl
    ++ join nl (CppHeaderAndSource.includes self
                ++ flat_map CppClass.includes (CppHeaderAndSource.classes self))
    ++ concat_all (map CppStruct.generate_header_content (CppHeaderAndSource.structs self))
    ++ concat_all (CppHeaderAndSource.extra_header_code self)
    ++ nl ++ nl
    ++ concat_all (map CppClass.generate_header_content (CppHeaderAndSource.classes self))
    ++ "#endif // " ++ G.
Proof.
  intros G. unfold CppHeaderAndSource.generate_header_content.
  fold (CppHeaderAndSource.guard_name self).
  change (CppHeaderAndSource.guard_name self) with G.
  rewrite fold_left_extend.
  rewrite (fold_left_add CppClass.generate_header_content).
  rewrite (fold_left_add (fun header_code : string => header_code)).
  rewrite (fold_left_add CppStruct.generate_header_content).
  rewrite map_id. cbn [app]. now rewrite ?append_assoc.
Qed.

(** C1. The example of the [__main__] block.  The file pair [example_file]
    holds the struct [ExampleStruct], with members [w] and [z] of type [int]
    and the public out-of-line method [add], and the class [ExampleClass],
    with members [x : int] and [y : float], the iostream include and the
    constructor built by [add_constructor].  It renders exactly the header and
    the source written out line by line in [Example]. *)
Theorem example_renders :
  Example.cpp_struct
  = CppStruct.mk "ExampleStruct"
      [CppMember.mk "w" "int" ""; CppMember.mk "z" "int" ""]
      [CppMethod.mk "add" "int" "" "return w + z;" "public" "" false []]
  /\ Example.cpp_class
  = CppClass.mk "ExampleClass"
      [CppMember.mk "x" "int" ""; CppMember.mk "y" "float" ""]
      [CppMethod.mk "ExampleClass" "" "int x, float y" "" "public" "x(x), y(y)" false []]
      ["#include <iostream>" ++ nl]
  /\ Example.cpp_header_and_source
  = CppHeaderAndSource.mk "example_file" [] [] [Example.cpp_struct] [Example.cpp_class]
  /\ CppHeaderAndSource.generate_header_content Example.cpp_header_and_source
  = Example.expected_header
  /\ CppHeaderAndSource.generate_source_content Example.cpp_header_and_source
  = Example.expected_source.
Proof. repeat split; vm_compute; reflexivity. Qed.

(** ** The identifier normalizer *)

Lemma to_lower_not_upper (c : ascii) : is_upper (to_lower c) = false.
Proof. destruct c as [[|] [|] [|] [|] [|] [|] [|] [|]]; reflexivity. Qed.

Lemma alnum_to_lower_not_underscore (c : ascii) :
  is_alnum c = true -> Ascii.eqb (to_lower c) UNDERSCORE = false.
Proof.
  destruct c as [[|] [|] [|] [|] [|] [|] [|] [|]]; vm_compute;
    intros H; (reflexivity || discriminate H).
Qed.

Lemma lower_no_upper (s : string) (c : ascii) :
  In c (list_ascii_of_string (lower s)) -> is_upper c = false.
Proof.
  induction s as [|a s IH]; simpl; [contradiction|].
  intros [<- | H]; [apply to_lower_not_upper | now apply IH].
Qed.

Lemma flush_run_cases (run : nat) :
  Re.flush_run run = "" \/ Re.flush_run run = "_".
Proof. destruct run as [|[|run]]; simpl; auto. Qed.

(** Collapsing runs of underscores keeps characters of the input only. *)
Lemma sub_underscore_runs_chars (s : string) (run : nat) (c : ascii) :
  In c (list_ascii_of_string (Re.sub_underscore_runs run s)) ->
  c = UNDERSCORE \/ In c (list_ascii_of_string s).
Proof.
  revert run; induction s as [|a s IH]; intros run;
    cbn [Re.sub_underscore_runs list_ascii_of_string].
  - destruct (flush_run_cases run) as [-> | ->]; simpl;
      [tauto | intros [<- | []]; now left].
  - destruct (Ascii.eqb a UNDERSCORE).
    + intros H. destruct (IH _ H); simpl; auto.
    + rewrite chars_append. intros H. apply in_app_or in H. destruct H as [H | H].
      * destruct (flush_run_cases run) as [E | E]; rewrite E in H; simpl in H;
          [contradiction | destruct H as [<- | []]; now left].
      * simpl in H. destruct H as [-> | H]; [simpl; auto|].
        destruct (IH _ H); simpl; auto.
Qed.

Lemma no_double_underscore_step (a b : ascii) (s : string) :
  no_double_underscore (String a (String b s))
  = negb (Ascii.eqb a UNDERSCORE && Ascii.eqb b UNDERSCORE)
    && no_double_underscore (String b s).
Proof. reflexivity. Qed.

Lemma no_double_underscore_cons (a : ascii) (s : string) :
  Ascii.eqb a UNDERSCORE = false ->
  no_double_underscore s = true ->
  no_double_underscore (String a s) = true.
Proof.
  intros Ha Hs. destruct s as [|b s]; [reflexivity|].
  now rewrite no_double_underscore_step, Ha, Hs.
Qed.

Lemma sub_underscore_runs_no_double (s : string) (run : nat) :
  no_double_underscore (Re.sub_underscore_runs run s) = true.
Proof.
  revert run; induction s as [|a s IH]; intros run; cbn [Re.sub_underscore_runs].
  - destruct (flush_run_cases run) as [-> | ->]; reflexivity.
  - destruct (Ascii.eqb a UNDERSCORE) eqn:Ea; [apply IH|].
    pose proof (no_double_underscore_cons a _ Ea (IH 0)) as Hrest.
    destruct (flush_run_cases run) as [-> | ->]; [exact Hrest|].
    cbn [String.append]. rewrite no_double_underscore_step, Ea, andb_false_r.
    exact Hrest.
Qed.

Lemma no_double_underscore_sound (s : string) :
  no_double_underscore s = true -> ~ occurs_in "__" s.
Proof.
  intros Hs [pre [post ->]]. induction pre as [|a pre IH].
  - discriminate Hs.
  - apply IH. destruct pre as [|b pre]; cbn [String.append] in Hs |- *;
      rewrite no_double_underscore_step in Hs;
      apply andb_true_iff in Hs; apply Hs.
Qed.

(** [rstrip] keeps a prefix of its argument. *)
Lemma rstrip_underscore_prefix (s : string) :
  exists dropped : string, s = rstrip_underscore s ++ dropped.
Proof.
  induction s as [|a s [dropped IH]]; [now exists ""|].
  cbn [rstrip_underscore].
  destruct (rstrip_underscore s) as [|b r]; cbn [String.append] in IH.
  - destruct (Ascii.eqb a UNDERSCORE).
    + now exists (String a s).
    + exists dropped. cbn [String.append]. now f_equal.
  - exists dropped. cbn [String.append]. now f_equal.
Qed.

Lemma rstrip_underscore_cons (a : ascii) (s : string) :
  Ascii.eqb a UNDERSCORE = false ->
  rstrip_underscore (String a s) = String a (rstrip_underscore s).
Proof. intros Ha. simpl. rewrite Ha. now destruct (rstrip_underscore s). Qed.

Lemma rstrip_underscore_no_trailing (s : string) :
  ~ trailing_underscore (rstrip_underscore s).
Proof.
  induction s as [|a s IH]; intros [rest H]; simpl in H.
  - destruct rest; discriminate.
  - destruct (rstrip_underscore s) as [|b r] eqn:Er.
    + destruct (Ascii.eqb a UNDERSCORE) eqn:Ea.
      * destruct rest; discriminate.
      * destruct rest as [|x [|y rest]]; simpl in H; try discriminate.
        injection H as ->. now rewrite Ascii.eqb_refl in Ea.
    + destruct rest as [|x rest]; simpl in H; [discriminate|].
      injection H as _ H. apply IH. now exists rest.
Qed.

(** What the characters of [rstrip]'s result are: characters of its input. *)
Lemma rstrip_underscore_chars (s : string) (c : ascii) :
  In c (list_ascii_of_string (rstrip_underscore s)) -> In c (list_ascii_of_string s).
Proof.
  destruct (rstrip_underscore_prefix s) as [dropped H]. intros Hin.
  rewrite H, chars_append. apply in_or_app. now left.
Qed.

(** [rstrip] is Python's: trailing underscores go, anything else stays. *)
Lemma rstrip_underscore_snoc_underscore (s : string) :
  rstrip_underscore (s ++ "_") = rstrip_underscore s.
Proof. induction s as [|a s IH]; simpl; [reflexivity | now rewrite IH]. Qed.

Lemma rstrip_underscore_snoc_other (s : string) (c : ascii) :
  Ascii.eqb c UNDERSCORE = false ->
  rstrip_underscore (s ++ String c "") = s ++ String c "".
Proof.
  intros Hc. induction s as [|a s IH]; simpl; [now rewrite Hc|].
  rewrite IH. now destruct s.
Qed.

(** The first character of the input, in lower case, opens the result. *)
Lemma camel_to_snake_case_head (a : ascii) (s : string) :
  is_alnum a = true ->
  exists rest : string, camel_to_snake_case (String a s) = String (to_lower a) rest.
Proof.
  intros Ha. unfold camel_to_snake_case. cbn [Re.sub_at_positions Re.not_at_start
    Re.a_non_digit Re.a_digit andb String.append lower map_chars].
  cbn [Re.sub_underscore_runs]. rewrite (alnum_to_lower_not_underscore _ Ha).
  cbn [Re.flush_run Nat.leb String.append].
  rewrite (rstrip_underscore_cons _ _ (alnum_to_lower_not_underscore _ Ha)).
  eexists. reflexivity.
Qed.

(** The normalizer on a few identifiers. *)
Example camel_to_snake_case_examples :
  camel_to_snake_case "exampleFile" = "example_file"
  /\ camel_to_snake_case "example_file" = "example_file"
  /\ camel_to_snake_case "HTTPServer2Config" = "h_t_t_p_server_2_config"
  /\ camel_to_snake_case "a1B" = "a_1_b"
  /\ camel_to_snake_case "abc__" = "abc".
Proof. repeat split. Qed.

(** C6. On an input made of letters and digits only, the result of the
    normalizer has no upper-case letter, no two underscores in a row, and no
    underscore at its start or at its end.  The empty input gives the empty
    result.  The normalizer is a total function: it returns on every input. *)
Theorem camel_to_snake_case_shape (camel_str : string) :
  camel_to_snake_case "" = ""
  /\ (all_chars is_alnum camel_str = true ->
      (forall c : ascii,
         In c (list_ascii_of_string (camel_to_snake_case camel_str)) -> is_upper c = false)
      /\ ~ occurs_in "__" (camel_to_snake_case camel_str)
      /\ ~ leading_underscore (camel_to_snake_case camel_str)
      /\ ~ trailing_underscore (camel_to_snake_case camel_str)).
Proof.
  split; [reflexivity|]. intros Halnum. split; [|split; [|split]].
  - intros c Hc. unfold camel_to_snake_case in Hc.
    apply rstrip_underscore_chars, sub_underscore_runs_chars in Hc.
    destruct Hc as [-> | Hc]; [reflexivity | now apply lower_no_upper in Hc].
  - intros [pre [post H]]. unfold camel_to_snake_case in H.
    destruct (rstrip_underscore_prefix
                (Re.sub_underscore_runs 0
                   (lower (Re.sub_at_positions Re.a_digit Re.a_non_digit "_" None
                      (Re.sub_at_positions Re.a_non_digit Re.a_digit "_" None
                         (Re.sub_at_positions Re.not_at_start Re.ahead_upper "_" None
                            camel_str)))))) as [dropped Hd].
    rewrite H in Hd.
    eapply no_double_underscore_sound; [apply sub_underscore_runs_no_double|].
    exists pre, (post ++ dropped). rewrite Hd. now rewrite !append_assoc.
  - destruct camel_str as [|a s].
    + intros [rest H]. discriminate H.
    + unfold all_chars in Halnum. simpl in Halnum. apply andb_true_iff in Halnum.
      destruct Halnum as [Ha _].
      destruct (camel_to_snake_case_head a s Ha) as [rest ->].
      intros [rest' H]. injection H as H _.
      pose proof (alnum_to_lower_not_underscore _ Ha) as Hne.
      rewrite H in Hne. discriminate Hne.
  - apply rstrip_underscore_no_trailing.
Qed.

Lemma camel_to_snake_case_shape_witness :
  (forall c : ascii,
     In c (list_ascii_of_string (camel_to_snake_case "HTTPServer2Config")) ->
     is_upper c = false)
  /\ ~ occurs_in "__" (camel_to_snake_case "HTTPServer2Config")
  /\ ~ leading_underscore (camel_to_snake_case "HTTPServer2Config")
  /\ ~ trailing_underscore (camel_to_snake_case "HTTPServer2Config").
Proof.
  apply (proj2 (camel_to_snake_case_shape "HTTPServer2Config")). reflexivity.
Defined.

(** ** Rendering on the heap *)

Lemma bind_run {A B : Type} (m : Py.M A) (k : A -> Py.M B) (h h' : Py.heap) (x : A) :
  m h = (x, h') -> Py.bind m k h = k x h'.
Proof. intros H. unfold Py.bind. now rewrite H. Qed.

Lemma nth_old (h fresh : Py.heap) (l : Py.loc) :
  l < List.length h -> nth l (h ++ fresh) [] = nth l h [].
Proof. intros H. now apply app_nth1. Qed.

Lemma nth_fresh (h rest : Py.heap) (x : list string) :
  nth (List.length h) (h ++ x :: rest) [] = x.
Proof. induction h as [|y h IH]; simpl; [reflexivity | exact IH]. Qed.

Lemma nth_fresh_next (h rest : Py.heap) (x y : list string) :
  nth (S (List.length h)) (h ++ x :: y :: rest) [] = y.
Proof. induction h as [|z h IH]; simpl; [reflexivity | exact IH]. Qed.

Lemma store_fresh (h rest : Py.heap) (x v : list string) :
  Py.store (List.length h) v (h ++ x :: rest)%list = (h ++ v :: rest)%list.
Proof. induction h as [|y h IH]; simpl; [reflexivity | now f_equal]. Qed.

Lemma store_fresh_next (h rest : Py.heap) (x y v : list string) :
  Py.store (S (List.length h)) v (h ++ x :: y :: rest)%list = (h ++ x :: v :: rest)%list.
Proof. induction h as [|z h IH]; simpl; [reflexivity | now f_equal]. Qed.

Lemma only_allocates_refl (h : Py.heap) : Py.only_allocates h h.
Proof. exists []. now rewrite app_nil_r. Qed.

Lemma only_allocates_trans (h1 h2 h3 : Py.heap) :
  Py.only_allocates h1 h2 -> Py.only_allocates h2 h3 -> Py.only_allocates h1 h3.
Proof. intros [f1 ->] [f2 ->]. exists (f1 ++ f2)%list. now rewrite app_assoc. Qed.

(** The loop of the partition function writes the two lists it was given,
    which are the last two of the heap, as the fold of [partition_step] does. *)
Lemma partition_loop_run (class_name : string) (methods : list CppMethod.t)
    (h : Py.heap) (public_methods private_methods : list string) :
  Py.for_each methods (fun method =>
    Py.bind
      (if CppMethod.access_modifier method =? "public" then
         if CppMethod.define_in_header method
         then Py.list_append (List.length h) (CppMethod.get_definition method class_name)
         else Py.list_append (List.length h) (CppMethod.declaration method)
       else Py.ret tt)
      (fun _ =>
       if CppMethod.access_modifier method =? "private" then
         if CppMethod.define_in_header method
         then Py.list_append (S (List.length h)) (CppMethod.get_definition method class_name)
         else Py.list_append (S (List.length h)) (CppMethod.declaration method)
       else Py.ret tt))
    (h ++ [public_methods; private_methods])%list
  = (tt, (h ++ [fst (fold_left (partition_step class_name) methods
                       (public_methods, private_methods));
                snd (fold_left (partition_step class_name) methods
                       (public_methods, private_methods))])%list).
Proof.
  revert public_methods private_methods.
  induction methods as [|method methods IH]; intros public_methods private_methods.
  - reflexivity.
  - cbn [Py.for_each fold_left]. unfold Py.bind at 1.
    set (step := partition_step class_name (public_methods, private_methods) method).
    assert (Hstep :
      Py.bind
        (if CppMethod.access_modifier method =? "public" then
           if CppMethod.define_in_header method
           then Py.list_append (List.length h) (CppMethod.get_definition method class_name)
           else Py.list_append (List.length h) (CppMethod.declaration method)
         else Py.ret tt)
        (fun _ =>
         if CppMethod.access_modifier method =? "private" then
           if CppMethod.define_in_header method
           then Py.list_append (S (List.length h))
                  (CppMethod.get_definition method class_name)
           else Py.list_append (S (List.length h)) (CppMethod.declaration method)
         else Py.ret tt)
        (h ++ [public_methods; private_methods])%list
      = (tt, (h ++ [fst step; snd step])%list)).
    { subst step. unfold partition_step, Py.bind, Py.list_append, Py.ret.
      destruct (CppMethod.access_modifier method =? "public"),
               (CppMethod.access_modifier method =? "private"),
               (CppMethod.define_in_header method);
        cbn [fst snd];
        rewrite ?nth_fresh, ?store_fresh, ?nth_fresh_next, ?store_fresh_next;
        reflexivity. }
    rewrite Hstep. rewrite (surjective_pairing step) at 3 4. apply IH.
Qed.

(** The partition function on the heap returns what the function on values
    returns and leaves two new lists behind. *)
Lemma partition_run (class_name : string) (methods : list CppMethod.t) (h : Py.heap) :
  Py.get_public_and_private_methods_for_header class_name methods h
  = (get_public_and_private_methods_for_header class_name methods,
     (h ++ [fst (get_public_and_private_methods_for_header class_name methods);
            snd (get_public_and_private_methods_for_header class_name methods)])%list).
Proof.
  unfold Py.get_public_and_private_methods_for_header.
  unfold Py.bind at 1, Py.new_list at 1. unfold Py.bind at 1, Py.new_list at 1.
  rewrite length_app, Nat.add_1_r, <- app_assoc. cbn [app].
  unfold Py.bind at 1. rewrite partition_loop_run.
  fold (get_public_and_private_methods_for_header class_name methods).
  unfold Py.bind, Py.contents, Py.ret.
  rewrite nth_fresh, nth_fresh_next.
  now rewrite <- surjective_pairing.
Qed.

Lemma header_fragment_run (is_class : bool) (class_or_struct_name : string)
    (members : list CppMember.t) (methods : list CppMethod.t) (h : Py.heap) :
  Py.generate_header_content_for_class_or_struct is_class class_or_struct_name
    members methods h
  = (generate_header_content_for_class_or_struct is_class class_or_struct_name
       members methods,
     (h ++ [fst (get_public_and_private_methods_for_header class_or_struct_name methods);
            snd (get_public_and_private_methods_for_header class_or_struct_name methods)])%list).
Proof.
  unfold Py.generate_header_content_for_class_or_struct,
    generate_header_content_for_class_or_struct.
  rewrite (bind_run _ _ _ _ _ (partition_run class_or_struct_name methods h)).
  unfold Py.ret.
  now destruct (get_public_and_private_methods_for_header class_or_struct_name methods).
Qed.

Lemma fold_left_over_map {A B C : Type} (f : C -> B -> C) (g : A -> B)
    (xs : list A) (acc : C) :
  fold_left f (map g xs) acc = fold_left (fun acc x => f acc (g x)) xs acc.
Proof. revert acc; induction xs as [|x xs IH]; intros acc; simpl; [reflexivity | apply IH]. Qed.

(** A loop [for x in xs: content += f(x)] whose [f] only allocates: it adds
    the texts in list order and only allocates. *)
Lemma for_each_add_run {A : Type} (f : A -> Py.M string) (g : A -> string)
    (xs : list A) :
  (forall x h, exists fresh, f x h = (g x, (h ++ fresh)%list)) ->
  forall content h, exists fresh,
    Py.for_each_add xs content f h
    = (fold_left (fun content x => content ++ g x) xs content, (h ++ fresh)%list).
Proof.
  intros Hf. induction xs as [|x xs IH]; intros content h; cbn [Py.for_each_add fold_left].
  - exists []. unfold Py.ret. now rewrite app_nil_r.
  - destruct (Hf x h) as [fresh1 H1]. rewrite (bind_run _ _ _ _ _ H1).
    destruct (IH (content ++ g x) (h ++ fresh1)%list) as [fresh2 H2].
    exists (fresh1 ++ fresh2)%list. now rewrite H2, app_assoc.
Qed.

(** [all_includes.extend(src)], [all_includes] being the newest list. *)
Lemma extend_fresh_run (h : Py.heap) (acc : list string) (src : Py.loc) :
  src < List.length h ->
  Py.list_extend (List.length h) src (h ++ [acc])%list
  = (tt, (h ++ [(acc ++ nth src h [])%list])%list).
Proof.
  intros Hsrc. unfold Py.list_extend.
  now rewrite nth_fresh, store_fresh, (nth_old _ _ _ Hsrc).
Qed.

Lemma includes_loop_run (classes : list Py.class_obj) (h : Py.heap) (acc : list string) :
  Forall (fun cls => Py.c_includes cls < List.length h) classes ->
  Py.for_each classes (fun cls => Py.list_extend (List.length h) (Py.c_includes cls))
    (h ++ [acc])%list
  = (tt, (h ++ [fold_left (fun all_includes cls => (all_includes ++ CppClass.includes cls)%list)
                  (map (Py.class_at h) classes) acc])%list).
Proof.
  intros Hall. revert acc. induction Hall as [|cls classes Hcls _ IH]; intros acc.
  - reflexivity.
  - cbn [Py.for_each map fold_left].
    rewrite (bind_run _ _ _ _ _ (extend_fresh_run h acc _ Hcls)). apply IH.
Qed.

Lemma struct_header_run (struct : CppStruct.t) (h : Py.heap) :
  exists fresh, Py.struct_generate_header_content struct h
                = (CppStruct.generate_header_content struct, (h ++ fresh)%list).
Proof. eexists. apply header_fragment_run. Qed.

Lemma class_header_run (h0 : Py.heap) (cls : Py.class_obj) (h : Py.heap) :
  exists fresh, Py.class_generate_header_content cls h
                = (CppClass.generate_header_content (Py.class_at h0 cls), (h ++ fresh)%list).
Proof. eexists. apply header_fragment_run. Qed.

Lemma struct_source_run (struct : CppStruct.t) (h : Py.heap) :
  exists fresh, Py.struct_generate_source_content struct h
                = (CppStruct.generate_source_content struct, (h ++ fresh)%list).
Proof. exists []. rewrite app_nil_r. reflexivity. Qed.

Lemma class_source_run (h0 : Py.heap) (cls : Py.class_obj) (h : Py.heap) :
  exists fresh, Py.class_generate_source_content cls h
                = (CppClass.generate_source_content (Py.class_at h0 cls), (h ++ fresh)%list).
Proof. exists []. rewrite app_nil_r. reflexivity. Qed.

(** One [for x in xs: content += f(x)] loop of a render operation: run it by
    [for_each_add_run] and go on from the heap it leaves. *)
Ltac run_add_loop xs f g Hf fresh H :=
  match goal with
  | |- context [Py.bind (Py.for_each_add xs ?content f) _ ?h0] =>
      destruct (for_each_add_run f g xs Hf content h0) as [fresh H];
      rewrite (bind_run _ _ _ _ _ H)
  end.

Lemma ret_run (x : string) (h : Py.heap) :
  exists fresh, Py.ret x h = (x, (h ++ fresh)%list).
Proof. exists []. unfold Py.ret. now rewrite app_nil_r. Qed.

(** The header render on the heap returns the text the function on values
    gives for the object graph the heap holds, and only allocates. *)
Lemma header_run (o : Py.file_obj) (h : Py.heap) :
  Py.allocated h o ->
  exists fresh,
    Py.generate_header_content o h
    = (CppHeaderAndSource.generate_header_content (Py.file_at h o), (h ++ fresh)%list).
Proof.
  intros [Hfile Hclasses].
  unfold Py.generate_header_content, CppHeaderAndSource.generate_header_content,
    CppHeaderAndSource.guard_name.
  cbn [Py.file_at CppHeaderAndSource.name CppHeaderAndSource.includes
       CppHeaderAndSource.extra_header_code CppHeaderAndSource.structs
       CppHeaderAndSource.classes].
  set (G := upper (camel_to_snake_case (Py.f_name o)) ++ "_HPP").
  rewrite (bind_run _ _ h (h ++ [[]])%list (List.length h) eq_refl).
  rewrite (bind_run _ _ _ _ _ (extend_fresh_run h [] _ Hfile)).
  rewrite (bind_run _ _ _ _ _ (includes_loop_run _ h _ Hclasses)).
  unfold Py.bind at 1, Py.contents at 1. rewrite nth_fresh.
  set (all_includes := fold_left _ (map (Py.class_at h) (Py.f_classes o)) _).
  run_add_loop (Py.f_structs o) Py.struct_generate_header_content
    CppStruct.generate_header_content struct_header_run fresh1 H1.
  run_add_loop (Py.f_extra_header_code o) (fun code : string => Py.ret code)
    (fun code : string => code) ret_run fresh2 H2.
  run_add_loop (Py.f_classes o) Py.class_generate_header_content
    (fun cls => CppClass.generate_header_content (Py.class_at h cls))
    (class_header_run h) fresh3 H3.
  unfold Py.ret.
  exists ([all_includes] ++ fresh1 ++ fresh2 ++ fresh3)%list.
  rewrite fold_left_over_map. now rewrite !app_assoc.
Qed.

(** The source render on the heap: the text of the function on values, and
    no list created or written. *)
Lemma source_run (o : Py.file_obj) (h0 h : Py.heap) :
  exists fresh,
    Py.generate_source_content o h
    = (CppHeaderAndSource.generate_source_content (Py.file_at h0 o), (h ++ fresh)%list).
Proof.
  unfold Py.generate_source_content, CppHeaderAndSource.generate_source_content.
  cbn [Py.file_at CppHeaderAndSource.name CppHeaderAndSource.structs
       CppHeaderAndSource.classes].
  run_add_loop (Py.f_structs o) Py.struct_generate_source_content
    CppStruct.generate_source_content struct_source_run fresh1 H1.
  run_add_loop (Py.f_classes o) Py.class_generate_source_content
    (fun cls => CppClass.generate_source_content (Py.class_at h0 cls))
    (class_source_run h0) fresh2 H2.
  unfold Py.ret.
  exists (fresh1 ++ fresh2)%list.
  rewrite fold_left_over_map. now rewrite !app_assoc.
Qed.

(** Allocation does not change what the heap holds for an object. *)
Lemma class_at_stable (h fresh : Py.heap) (cls : Py.class_obj) :
  Py.c_includes cls < List.length h ->
  Py.class_at (h ++ fresh) cls = Py.class_at h cls.
Proof. intros H. unfold Py.class_at. now rewrite (nth_old _ _ _ H). Qed.

Lemma file_at_stable (h fresh : Py.heap) (o : Py.file_obj) :
  Py.allocated h o -> Py.file_at (h ++ fresh) o = Py.file_at h o.
Proof.
  intros [Hfile Hclasses]. unfold Py.file_at. rewrite (nth_old _ _ _ Hfile). f_equal.
  apply map_ext_in. intros cls Hin. apply class_at_stable.
  rewrite Forall_forall in Hclasses. now apply Hclasses.
Qed.

Lemma allocated_mono (h fresh : Py.heap) (o : Py.file_obj) :
  Py.allocated h o -> Py.allocated (h ++ fresh) o.
Proof.
  intros [Hfile Hclasses]. split.
  - rewrite length_app. lia.
  - eapply Forall_impl; [|exact Hclasses]. cbn beta. intros cls H.
    rewrite length_app. lia.
Qed.

(** An operation that only allocates and returns the same value from every
    heap that extends [h] is repeatable from [h]. *)
Lemma repeatable_intro {A : Type} (op : Py.M A) (h : Py.heap) (r : A) :
  (forall fresh, exists fresh',
     op (h ++ fresh)%list = (r, ((h ++ fresh) ++ fresh')%list)) ->
  Py.repeatable op h.
Proof.
  intros Hop. destruct (Hop []) as [fresh1 H1]. rewrite app_nil_r in H1.
  destruct (Hop fresh1) as [fresh2 H2]. unfold Py.repeatable.
  rewrite H1. cbn [fst snd]. rewrite H2. cbn [fst snd].
  split; [reflexivity | split; [now exists fresh1 | now exists fresh2]].
Qed.

Lemma only_allocates_snd {A : Type} (op : Py.M A) (h : Py.heap) :
  Py.repeatable op h -> exists fresh, snd (op h) = (h ++ fresh)%list.
Proof. intros [_ [H _]]. exact H. Qed.

(** C10. Every render operation, of a struct, of a class and of a file pair,
    header or source, run twice in a row on an object graph whose lists are
    on the heap returns the same text both times, and no run changes a list
    that existed before it: the heap only grows by the lists the run creates
    for itself, and the object graph read back from the heap afterwards is the
    one that was there before. *)
Theorem rendering_repeatable_graph_unchanged
    (o : Py.file_obj) (cls : Py.class_obj) (struct : CppStruct.t) (h : Py.heap) :
  Py.allocated h o ->
  Py.c_includes cls < List.length h ->
  (Py.repeatable (Py.struct_generate_header_content struct) h
   /\ Py.repeatable (Py.struct_generate_source_content struct) h)
  /\ (Py.repeatable (Py.class_generate_header_content cls) h
      /\ Py.repeatable (Py.class_generate_source_content cls) h
      /\ Py.class_at (snd (Py.class_generate_header_content cls h)) cls = Py.class_at h cls
      /\ Py.class_at (snd (Py.class_generate_source_content cls h)) cls = Py.class_at h cls)
  /\ (Py.repeatable (Py.generate_header_content o) h
      /\ Py.repeatable (Py.generate_source_content o) h
      /\ Py.file_at (snd (Py.generate_header_content o h)) o = Py.file_at h o
      /\ Py.file_at (snd (Py.generate_source_content o h)) o = Py.file_at h o).
Proof.
  intros Hfile Hcls.
  assert (Hsh : Py.repeatable (Py.struct_generate_header_content struct) h)
    by (eapply repeatable_intro; intros fresh; apply struct_header_run).
  assert (Hss : Py.repeatable (Py.struct_generate_source_content struct) h)
    by (eapply repeatable_intro; intros fresh; apply struct_source_run).
  assert (Hch : Py.repeatable (Py.class_generate_header_content cls) h)
    by (eapply repeatable_intro; intros fresh; apply (class_header_run h)).
  assert (Hcs : Py.repeatable (Py.class_generate_source_content cls) h)
    by (eapply repeatable_intro; intros fresh; apply (class_source_run h)).
  assert (Hfh : Py.repeatable (Py.generate_header_content o) h).
  { eapply repeatable_intro. intros fresh.
    destruct (header_run o (h ++ fresh)%list (allocated_mono _ _ _ Hfile)) as [fresh' H].
    exists fresh'. rewrite H. now rewrite (file_at_stable _ _ _ Hfile). }
  assert (Hfs : Py.repeatable (Py.generate_source_content o) h)
    by (eapply repeatable_intro; intros fresh; apply (source_run o h)).
  split; [split; assumption|]. split.
  - split; [assumption|]. split; [assumption|]. split.
    + destruct (only_allocates_snd _ _ Hch) as [fresh ->]. now apply class_at_stable.
    + destruct (only_allocates_snd _ _ Hcs) as [fresh ->]. now apply class_at_stable.
  - split; [assumption|]. split; [assumption|]. split.
    + destruct (only_allocates_snd _ _ Hfh) as [fresh ->]. now apply file_at_stable.
    + destruct (only_allocates_snd _ _ Hfs) as [fresh ->]. now apply file_at_stable.
Qed.

Lemma rendering_repeatable_graph_unchanged_witness :
  Py.repeatable (Py.generate_header_content Py.example_file) Py.example_heap
  /\ Py.file_at (snd (Py.generate_header_content Py.example_file Py.example_heap))
       Py.example_file
     = Py.file_at Py.example_heap Py.example_file.
Proof.
  assert (Hfile : Py.allocated Py.example_heap Py.example_file).
  { split; [simpl; lia | repeat constructor]. }
  assert (Hcls : Py.c_includes Py.example_class < List.length Py.example_heap)
    by (simpl; lia).
  destruct (rendering_repeatable_graph_unchanged Py.example_file Py.example_class
              Example.cpp_struct Py.example_heap Hfile Hcls)
    as [_ [_ [Hheader [_ [Hgraph _]]]]].
  split; assumption.
Defined.

(** The example on the heap renders the texts of the example on values. *)
Example example_renders_on_heap :
  fst (Py.generate_header_content Py.example_file Py.example_heap)
  = Example.expected_header
  /\ fst (Py.generate_source_content Py.example_file Py.example_heap)
  = Example.expected_source
  /\ Py.file_at Py.example_heap Py.example_file = Example.cpp_header_and_source.
Proof. repeat split; vm_compute; reflexivity. Qed.

(** ** Header fragments, source fragments and what goes where *)

(** X1. The header fragment of a class or struct, written out: the keyword
    and the name, a public section with every member followed by the header
    texts of the public methods, a private section with the header texts of
    the private methods, each group in list order. *)
Theorem header_fragment_layout (is_class : bool) (class_or_struct_name : string)
    (members : list CppMember.t) (methods : list CppMethod.t) :
  generate_header_content_for_class_or_struct is_class class_or_struct_name members methods
  = (if is_class then "class" else "struct") ++ " " ++ class_or_struct_name ++ " {" ++ nl
    ++ "public:" ++ nl
    ++ "    " ++ join (nl ++ "    ") (map CppMember.str members) ++ nl
    ++ nl ++ "    "
    ++ join (nl ++ "    ")
         (map (header_text class_or_struct_name) (filter is_public methods)) ++ nl
    ++ nl ++ "private:" ++ nl
    ++ "    "
    ++ join (nl ++ "    ")
         (map (header_text class_or_struct_name) (filter is_private methods)) ++ nl
    ++ "};" ++ nl ++ nl.
Proof.
  unfold generate_header_content_for_class_or_struct.
  rewrite partition_spec. reflexivity.
Qed.

Lemma join_occurs (sep x : string) (parts : list string) :
  In x parts -> occurs_in x (join sep parts).
Proof.
  unfold join. induction parts as [|y parts IH]; [contradiction|].
  intros [-> | Hin].
  - destruct parts as [|z parts].
    + exists "", "". cbn. now rewrite append_empty_r.
    + now exists "", (sep ++ String.concat sep (z :: parts)).
  - destruct parts as [|z parts]; [contradiction|].
    destruct (IH Hin) as [pre [post H]].
    change (String.concat sep (y :: z :: parts))
      with (y ++ sep ++ String.concat sep (z :: parts)).
    rewrite H. exists (y ++ sep ++ pre), post. now rewrite !append_assoc.
Qed.

Lemma other_modifier_filtered (method : CppMethod.t) :
  CppMethod.access_modifier method <> "public" ->
  CppMethod.access_modifier method <> "private" ->
  is_public method = false /\ is_private method = false.
Proof.
  intros Hpub Hpriv. unfold is_public, is_private.
  now apply String.eqb_neq in Hpub, Hpriv.
Qed.

(** X2. A method whose access modifier is neither [public] nor [private]
    and that is not defined in the header leaves no trace in the header
    fragment, which is the one of the list without it, while the source
    fragment still holds its out-of-line definition: the source defines a
    method that the header does not declare. *)
Theorem undeclared_method_still_defined (is_class : bool) (class_or_struct_name : string)
    (members : list CppMember.t) (before after : list CppMethod.t)
    (method : CppMethod.t) :
  CppMethod.access_modifier method <> "public" ->
  CppMethod.access_modifier method <> "private" ->
  CppMethod.define_in_header method = false ->
  generate_header_content_for_class_or_struct is_class class_or_struct_name members
    (before ++ method :: after)
  = generate_header_content_for_class_or_struct is_class class_or_struct_name members
      (before ++ after)
  /\ occurs_in (out_of_line_definition class_or_struct_name method)
       (generate_source_content_for_class_or_struct class_or_struct_name
          (before ++ method :: after)).
Proof.
  intros Hpub Hpriv Hdih.
  destruct (other_modifier_filtered method Hpub Hpriv) as [Epub Epriv]. split.
  - unfold generate_header_content_for_class_or_struct.
    rewrite !partition_spec, !filter_app. cbn [filter]. now rewrite Epub, Epriv.
  - rewrite source_fragment_spec. apply join_occurs, in_map, filter_In. split.
    + apply in_or_app. right. now left.
    + now rewrite Hdih.
Qed.

Lemma undeclared_method_still_defined_witness :
  generate_header_content_for_class_or_struct true "C" []
    ([] ++ CppMethod.mk "f" "void" "" "" "protected" "" false [] :: [])
  = generate_header_content_for_class_or_struct true "C" [] ([] ++ [])
  /\ occurs_in (out_of_line_definition "C"
                  (CppMethod.mk "f" "void" "" "" "protected" "" false []))
       (generate_source_content_for_class_or_struct "C"
          ([] ++ CppMethod.mk "f" "void" "" "" "protected" "" false [] :: [])).
Proof.
  apply (undeclared_method_still_defined true "C" [] [] []
           (CppMethod.mk "f" "void" "" "" "protected" "" false []));
    [discriminate | discriminate | reflexivity].
Defined.

(** X3. A method whose access modifier is neither [public] nor [private]
    and that is defined in the header is rendered nowhere: both fragments are
    those of the list without it. *)
Theorem inline_method_with_other_modifier_vanishes (is_class : bool)
    (class_or_struct_name : string) (members : list CppMember.t)
    (before after : list CppMethod.t) (method : CppMethod.t) :
  CppMethod.access_modifier method <> "public" ->
  CppMethod.access_modifier method <> "private" ->
  CppMethod.define_in_header method = true ->
  generate_header_content_for_class_or_struct is_class class_or_struct_name members
    (before ++ method :: after)
  = generate_header_content_for_class_or_struct is_class class_or_struct_name members
      (before ++ after)
  /\ generate_source_content_for_class_or_struct class_or_struct_name
       (before ++ method :: after)
     = generate_source_content_for_class_or_struct class_or_struct_name (before ++ after).
Proof.
  intros Hpub Hpriv Hdih.
  destruct (other_modifier_filtered method Hpub Hpriv) as [Epub Epriv]. split.
  - unfold generate_header_content_for_class_or_struct.
    rewrite !partition_spec, !filter_app. cbn [filter]. now rewrite Epub, Epriv.
  - rewrite !source_fragment_spec, !filter_app. cbn [filter]. now rewrite Hdih.
Qed.

Lemma inline_method_with_other_modifier_vanishes_witness :
  generate_header_content_for_class_or_struct false "S" []
    ([] ++ CppMethod.mk "f" "void" "" "" "protected" "" true [] :: [])
  = generate_header_content_for_class_or_struct false "S" [] ([] ++ [])
  /\ generate_source_content_for_class_or_struct "S"
       ([] ++ CppMethod.mk "f" "void" "" "" "protected" "" true [] :: [])
     = generate_source_content_for_class_or_struct "S" ([] ++ []).
Proof.
  apply (inline_method_with_other_modifier_vanishes false "S" [] [] []
           (CppMethod.mk "f" "void" "" "" "protected" "" true []));
    [discriminate | discriminate | reflexivity].
Defined.

Lemma concat_all_empty {A : Type} (f : A -> string) (xs : list A) :
  (forall x, In x xs -> f x = "") -> concat_all (map f xs) = "".
Proof.
  induction xs as [|x xs IH]; intros H; [reflexivity|].
  cbn [map concat_all fold_right]. rewrite (H x (or_introl eq_refl)).
  apply IH. intros y Hy. apply H. now right.
Qed.

Lemma source_fragment_all_inline (class_name : string) (methods : list CppMethod.t) :
  Forall (fun method => CppMethod.define_in_header method = true) methods ->
  generate_source_content_for_class_or_struct class_name methods = "".
Proof.
  intros Hall. rewrite source_fragment_spec.
  replace (filter (fun method => negb (CppMethod.define_in_header method)) methods)
    with (@nil CppMethod.t); [reflexivity|].
  induction Hall as [|method methods Hm _ IH]; [reflexivity|].
  cbn [filter]. now rewrite Hm.
Qed.

(** X4. When every method of every struct and class of a file pair is
    defined in the header, the source render is the self-include and its
    blank line and nothing else. *)
Theorem header_only_source (self : CppHeaderAndSource.t) :
  (forall struct, In struct (CppHeaderAndSource.structs self) ->
     Forall (fun method => CppMethod.define_in_header method = true)
       (CppStruct.methods struct)) ->
  (forall cls, In cls (CppHeaderAndSource.classes self) ->
     Forall (fun method => CppMethod.define_in_header method = true)
       (CppClass.methods cls)) ->
  CppHeaderAndSource.generate_source_content self
  = "#include " ++ dquote ++ CppHeaderAndSource.name self ++ ".hpp" ++ dquote ++ nl ++ nl.
Proof.
  intros Hstructs Hclasses. unfold CppHeaderAndSource.generate_source_content.
  rewrite !fold_left_add.
  rewrite (concat_all_empty CppStruct.generate_source_content).
  - rewrite (concat_all_empty CppClass.generate_source_content).
    + now rewrite !append_empty_r.
    + intros cls Hin. apply source_fragment_all_inline, Hclasses, Hin.
  - intros struct Hin. apply source_fragment_all_inline, Hstructs, Hin.
Qed.

Lemma header_only_source_witness :
  CppHeaderAndSource.generate_source_content
    (CppHeaderAndSource.mk "inline_only" [] []
       [CppStruct.mk "S" [] [CppMethod.mk "f" "int" "" "return 1;" "public" "" true []]]
       [CppClass.mk "C" [] [] []])
  = "#include " ++ dquote ++ "inline_only" ++ ".hpp" ++ dquote ++ nl ++ nl.
Proof.
  apply (header_only_source
           (CppHeaderAndSource.mk "inline_only" [] []
              [CppStruct.mk "S" [] [CppMethod.mk "f" "int" "" "return 1;" "public" "" true []]]
              [CppClass.mk "C" [] [] []])).
  - intros struct [<- | []]. repeat constructor.
  - intros cls [<- | []]. constructor.
Defined.

Lemma declarations_when_not_inline (class_name : string) (methods : list CppMethod.t) :
  Forall (fun method => CppMethod.define_in_header method = false) methods ->
  map (header_text class_name) methods = map CppMethod.declaration methods.
Proof.
  intros Hall. apply map_ext_in. intros method Hin.
  rewrite Forall_forall in Hall. unfold header_text. now rewrite (Hall method Hin).
Qed.

Lemma Forall_kept_by_filter {A : Type} (P : A -> Prop) (f : A -> bool) (xs : list A) :
  Forall P xs -> Forall P (filter f xs).
Proof.
  induction 1 as [|x xs Hx _ IH]; cbn [filter]; [constructor|].
  destruct (f x); [now constructor | exact IH].
Qed.

(** X5. For a class none of whose methods is defined in the header, the
    header fragment is the text of [__str__] followed by one more line
    break. *)
Theorem class_str_is_header_fragment (self : CppClass.t) :
  Forall (fun method => CppMethod.define_in_header method = false)
    (CppClass.methods self) ->
  CppClass.generate_header_content self = CppClass.str self ++ nl.
Proof.
  intros Hall. unfold CppClass.generate_header_content, CppClass.str.
  unfold generate_header_content_for_class_or_struct.
  rewrite partition_spec.
  rewrite (declarations_when_not_inline _ _ (Forall_kept_by_filter _ is_public _ Hall)).
  rewrite (declarations_when_not_inline _ _ (Forall_kept_by_filter _ is_private _ Hall)).
  unfold header_content_text, is_public, is_private.
  now rewrite ?append_assoc.
Qed.

Lemma class_str_is_header_fragment_witness :
  CppClass.generate_header_content Example.cpp_class
  = CppClass.str Example.cpp_class ++ nl.
Proof.
  apply (class_str_is_header_fragment Example.cpp_class). repeat constructor.
Defined.

(** X6. Adding a class to a file pair appends the source fragment of the
    class to the source render. *)
Theorem add_class_appends_source (self : CppHeaderAndSource.t) (cls : CppClass.t) :
  CppHeaderAndSource.generate_source_content (CppHeaderAndSource.add_class self cls)
  = CppHeaderAndSource.generate_source_content self
    ++ CppClass.generate_source_content cls.
Proof.
  unfold CppHeaderAndSource.generate_source_content, CppHeaderAndSource.add_class.
  cbn [CppHeaderAndSource.name CppHeaderAndSource.structs CppHeaderAndSource.classes].
  now rewrite fold_left_app.
Qed.

(** X7. Every public or private method of a class or struct is rendered on
    both sides as its placement says: one defined in the header has its
    inline definition among the header texts, and one not defined in the
    header has its declaration among the header texts and its out-of-line
    definition among the definitions of the source fragment. *)
Theorem method_placement (class_name : string) (methods : list CppMethod.t)
    (method : CppMethod.t) :
  In method methods ->
  CppMethod.access_modifier method = "public"
  \/ CppMethod.access_modifier method = "private" ->
  (CppMethod.define_in_header method = true ->
     In (inline_definition method)
        (fst (get_public_and_private_methods_for_header class_name methods)
         ++ snd (get_public_and_private_methods_for_header class_name methods)))
  /\ (CppMethod.define_in_header method = false ->
     In (CppMethod.declaration method)
        (fst (get_public_and_private_methods_for_header class_name methods)
         ++ snd (get_public_and_private_methods_for_header class_name methods))
     /\ In (out_of_line_definition class_name method)
          (source_definitions class_name methods)).
Proof.
  intros Hin Haccess.
  assert (Hheader :
    In (header_text class_name method)
       (fst (get_public_and_private_methods_for_header class_name methods)
        ++ snd (get_public_and_private_methods_for_header class_name methods))).
  { rewrite partition_spec. cbn [fst snd]. apply in_or_app.
    destruct Haccess as [H | H]; [left | right]; apply in_map, filter_In;
      (split; [exact Hin | unfold is_public, is_private; now rewrite H]). }
  split; intros Hdih.
  - unfold header_text in Hheader. rewrite Hdih in Hheader.
    now rewrite (get_definition_inline _ _ Hdih) in Hheader.
  - split.
    + unfold header_text in Hheader. now rewrite Hdih in Hheader.
    + rewrite source_definitions_out_of_line. apply in_map, filter_In.
      split; [exact Hin | now rewrite Hdih].
Qed.

Lemma method_placement_witness :
  In (CppMethod.declaration (CppMethod.init "add" "int" "" "return w + z;"))
     (fst (get_public_and_private_methods_for_header "ExampleStruct"
             [CppMethod.init "add" "int" "" "return w + z;"])
      ++ snd (get_public_and_private_methods_for_header "ExampleStruct"
             [CppMethod.init "add" "int" "" "return w + z;"]))
  /\ In (out_of_line_definition "ExampleStruct"
           (CppMethod.init "add" "int" "" "return w + z;"))
        (source_definitions "ExampleStruct"
           [CppMethod.init "add" "int" "" "return w + z;"]).
Proof.
  apply (proj2 (method_placement "ExampleStruct"
                  [CppMethod.init "add" "int" "" "return w + z;"]
                  (CppMethod.init "add" "int" "" "return w + z;")
                  (or_introl eq_refl) (or_introl eq_refl))).
  reflexivity.
Defined.

(** ** The normalizer on every input *)

Lemma to_lower_digit (c : ascii) : is_digit (to_lower c) = is_digit c.
Proof. destruct c as [[|] [|] [|] [|] [|] [|] [|] [|]]; reflexivity. Qed.

Lemma to_lower_underscore (c : ascii) : is_underscore (to_lower c) = is_underscore c.
Proof. destruct c as [[|] [|] [|] [|] [|] [|] [|] [|]]; reflexivity. Qed.

Lemma to_lower_fixed (c : ascii) : is_upper c = false -> to_lower c = c.
Proof. unfold to_lower. now intros ->. Qed.

Lemma strip_underscores_append (a b : string) :
  strip_underscores (a ++ b) = strip_underscores a ++ strip_underscores b.
Proof.
  induction a as [|c a IH]; [reflexivity|]. cbn [String.append strip_underscores].
  rewrite IH. now destruct (Ascii.eqb c UNDERSCORE).
Qed.

(** The three substitutions that insert underscores insert nothing else. *)
Lemma strip_sub_at_positions (lookbehind lookahead : option ascii -> bool)
    (prev : option ascii) (s : string) :
  strip_underscores (Re.sub_at_positions lookbehind lookahead "_" prev s)
  = strip_underscores s.
Proof.
  revert prev; induction s as [|c s IH]; intros prev; cbn [Re.sub_at_positions].
  - now destruct (lookbehind prev && lookahead None).
  - rewrite strip_underscores_append. cbn [strip_underscores]. rewrite IH.
    now destruct (lookbehind prev && lookahead (Some c)).
Qed.

Lemma strip_lower (s : string) :
  strip_underscores (lower s) = lower (strip_underscores s).
Proof.
  unfold lower. induction s as [|c s IH]; [reflexivity|].
  cbn [map_chars strip_underscores].
  pose proof (to_lower_underscore c) as H. unfold is_underscore in H. rewrite H.
  destruct (Ascii.eqb c UNDERSCORE); [exact IH | cbn [map_chars]; now rewrite IH].
Qed.

Lemma strip_flush_run (run : nat) : strip_underscores (Re.flush_run run) = "".
Proof. now destruct (flush_run_cases run) as [-> | ->]. Qed.

Lemma strip_sub_underscore_runs (run : nat) (s : string) :
  strip_underscores (Re.sub_underscore_runs run s) = strip_underscores s.
Proof.
  revert run; induction s as [|c s IH]; intros run;
    cbn [Re.sub_underscore_runs strip_underscores].
  - apply strip_flush_run.
  - destruct (Ascii.eqb c UNDERSCORE) eqn:Ec; [apply IH|].
    rewrite strip_underscores_append, strip_flush_run.
    cbn [strip_underscores String.append]. now rewrite Ec, IH.
Qed.

Lemma strip_rstrip_underscore (s : string) :
  strip_underscores (rstrip_underscore s) = strip_underscores s.
Proof.
  induction s as [|c s IH]; [reflexivity|]. cbn [rstrip_underscore].
  destruct (rstrip_underscore s) as [|b r].
  - cbn [strip_underscores] in IH |- *.
    destruct (Ascii.eqb c UNDERSCORE) eqn:Ec; cbn [strip_underscores];
      rewrite ?Ec; now rewrite <- IH.
  - cbn [strip_underscores] in IH |- *. now rewrite IH.
Qed.

(** X8. The normalizer only puts in and takes out underscores and lowers
    letters: the characters of its result other than underscores are those of
    its argument, in the same order and in lower case. *)
Theorem camel_to_snake_case_keeps_characters (camel_str : string) :
  strip_underscores (camel_to_snake_case camel_str)
  = lower (strip_underscores camel_str).
Proof.
  unfold camel_to_snake_case.
  rewrite strip_rstrip_underscore, strip_sub_underscore_runs, strip_lower.
  now rewrite !strip_sub_at_positions.
Qed.

(** The rewriting behind the preservation of characters, for reuse. *)
Ltac strip_through_normalizer :=
  unfold camel_to_snake_case;
  rewrite ?strip_rstrip_underscore, ?strip_sub_underscore_runs, ?strip_lower,
    ?strip_sub_at_positions.

Lemma strip_empty_iff (s : string) :
  strip_underscores s = "" <-> all_chars is_underscore s = true.
Proof.
  unfold all_chars, is_underscore. induction s as [|c s IH]; [now split|].
  cbn [strip_underscores list_ascii_of_string forallb].
  destruct (Ascii.eqb c UNDERSCORE); [exact IH | split; discriminate].
Qed.

Lemma lower_empty (s : string) : lower s = "" -> s = "".
Proof. now destruct s. Qed.

Lemma only_underscores_trailing (s : string) :
  all_chars is_underscore s = true -> s <> "" -> trailing_underscore s.
Proof.
  unfold all_chars, is_underscore, trailing_underscore.
  induction s as [|c s IH]; intros Hall Hne; [now elim Hne|].
  cbn [list_ascii_of_string forallb] in Hall. apply andb_true_iff in Hall.
  destruct Hall as [Hc Hall]. apply Ascii.eqb_eq in Hc. subst c.
  destruct s as [|b s].
  - now exists "".
  - destruct (IH Hall) as [rest H]; [discriminate|]. rewrite H.
    now exists (String UNDERSCORE rest).
Qed.

Lemma camel_to_snake_case_only_underscores (s : string) :
  all_chars is_underscore s = true -> camel_to_snake_case s = "".
Proof.
  intros Hall. destruct (string_dec (camel_to_snake_case s) "") as [E | E]; [exact E|].
  exfalso. apply (rstrip_underscore_no_trailing
    (Re.sub_underscore_runs 0
       (lower (Re.sub_at_positions Re.a_digit Re.a_non_digit "_" None
          (Re.sub_at_positions Re.a_non_digit Re.a_digit "_" None
             (Re.sub_at_positions Re.not_at_start Re.ahead_upper "_" None s)))))).
  apply only_underscores_trailing; [|exact E].
  apply strip_empty_iff. fold (camel_to_snake_case s). strip_through_normalizer.
  apply strip_empty_iff in Hall. now rewrite Hall.
Qed.

Lemma camel_to_snake_case_empty_only_underscores (s : string) :
  camel_to_snake_case s = "" -> all_chars is_underscore s = true.
Proof.
  intros E. apply strip_empty_iff, lower_empty.
  assert (H : strip_underscores (camel_to_snake_case s) = "") by now rewrite E.
  revert H. strip_through_normalizer. now intros ->.
Qed.

(** X9. The result of the normalizer is empty exactly when its argument is
    made of underscores only (the empty string among them). *)
Theorem camel_to_snake_case_empty_iff (camel_str : string) :
  camel_to_snake_case camel_str = "" <-> all_chars is_underscore camel_str = true.
Proof.
  split.
  - apply camel_to_snake_case_empty_only_underscores.
  - apply camel_to_snake_case_only_underscores.
Qed.

Lemma camel_to_snake_case_empty_iff_witness :
  camel_to_snake_case "___" = ""
  /\ all_chars is_underscore "" = true.
Proof.
  split.
  - exact (proj2 (camel_to_snake_case_empty_iff "___") eq_refl).
  - exact (proj1 (camel_to_snake_case_empty_iff "") eq_refl).
Defined.

Lemma sub_underscore_runs_pending (run : nat) (s : string) :
  exists rest, Re.sub_underscore_runs (S run) s = "_" ++ rest.
Proof.
  revert run; induction s as [|c s IH]; intros run; cbn [Re.sub_underscore_runs].
  - exists "". now destruct run.
  - destruct (Ascii.eqb c UNDERSCORE); [apply IH|].
    destruct run; cbn; eexists; reflexivity.
Qed.

Lemma rstrip_underscore_head (c : ascii) (s : string) :
  rstrip_underscore (String c s) = ""
  \/ exists rest, rstrip_underscore (String c s) = String c rest.
Proof.
  cbn [rstrip_underscore]. destruct (rstrip_underscore s) as [|b r].
  - destruct (Ascii.eqb c UNDERSCORE); [now left | right; now exists ""].
  - right. now exists (String b r).
Qed.

(** The first character of the argument opens the result, in lower case,
    unless the result is empty. *)
Lemma camel_to_snake_case_first (c : ascii) (s : string) :
  camel_to_snake_case (String c s) = ""
  \/ exists rest, camel_to_snake_case (String c s) = String (to_lower c) rest.
Proof.
  unfold camel_to_snake_case. cbn [Re.sub_at_positions Re.not_at_start
    Re.a_non_digit Re.a_digit andb String.append lower map_chars].
  cbn [Re.sub_underscore_runs].
  destruct (Ascii.eqb (to_lower c) UNDERSCORE) eqn:Ec.
  - apply Ascii.eqb_eq in Ec. rewrite Ec.
    match goal with
    | |- context [Re.sub_underscore_runs 1 ?x] =>
        destruct (sub_underscore_runs_pending 0 x) as [rest ->]
    end.
    apply rstrip_underscore_head.
  - cbn [Re.flush_run Nat.leb String.append]. apply rstrip_underscore_head.
Qed.

(** X10. The result of the normalizer starts with an underscore exactly
    when its argument starts with one and holds some other character: leading
    underscores are collapsed to one, not stripped. *)
Theorem camel_to_snake_case_leading_underscore (camel_str : string) :
  leading_underscore (camel_to_snake_case camel_str)
  <-> leading_underscore camel_str /\ all_chars is_underscore camel_str = false.
Proof.
  split.
  - intros [rest Hrest]. destruct camel_str as [|c s]; [discriminate Hrest|].
    destruct (camel_to_snake_case_first c s) as [E | [rest' E]];
      rewrite E in Hrest; [discriminate Hrest|].
    injection Hrest as Hc _.
    pose proof (to_lower_underscore c) as Hu. unfold is_underscore in Hu.
    rewrite Hc, Ascii.eqb_refl in Hu. symmetry in Hu. apply Ascii.eqb_eq in Hu.
    subst c. split; [now exists s|].
    destruct (all_chars is_underscore (String UNDERSCORE s)) eqn:Hall; [|reflexivity].
    rewrite (camel_to_snake_case_only_underscores _ Hall) in E. discriminate E.
  - intros [[rest ->] Hnot]. cbn [String.append] in *.
    destruct (camel_to_snake_case_first "_" rest) as [E | [rest' E]].
    + apply camel_to_snake_case_empty_only_underscores in E.
      rewrite E in Hnot. discriminate Hnot.
    + now exists rest'.
Qed.

Lemma camel_to_snake_case_leading_underscore_witness :
  leading_underscore (camel_to_snake_case "__privateName")
  /\ leading_underscore "_x".
Proof.
  split.
  - apply (proj2 (camel_to_snake_case_leading_underscore "__privateName")).
    split; [now exists "_privateName" | reflexivity].
  - apply (proj1 (camel_to_snake_case_leading_underscore "_x")).
    now exists "x".
Defined.

(** ** The normal form of the normalizer *)

Section Chains.

Variable p : ascii -> ascii -> bool.

(** [p] asks nothing of a pair one of whose characters is an underscore. *)
Hypothesis p_underscore :
  forall a b, is_underscore a = true \/ is_underscore b = true -> p a b = true.

Lemma chain_prev_underscore (prev : option ascii) :
  match prev with None => true | Some a => p a "_"%char end = true.
Proof.
  destruct prev as [a|]; [|reflexivity]. apply p_underscore. right. reflexivity.
Qed.

(** Putting underscores in keeps a chain. *)
Lemma chain_sub_at_positions (lookbehind lookahead : option ascii -> bool)
    (prev : option ascii) (s : string) :
  chain p prev s = true ->
  chain p prev (Re.sub_at_positions lookbehind lookahead "_" prev s) = true.
Proof.
  revert prev; induction s as [|c s IH]; intros prev H; cbn [Re.sub_at_positions].
  - destruct (lookbehind prev && lookahead None); [|reflexivity].
    cbn [chain]. now rewrite chain_prev_underscore.
  - cbn [chain] in H. apply andb_true_iff in H. destruct H as [Hc Hs].
    destruct (lookbehind prev && lookahead (Some c)); cbn [String.append chain].
    + rewrite chain_prev_underscore, (IH _ Hs).
      rewrite p_underscore; [reflexivity | left; reflexivity].
    + now rewrite Hc, (IH _ Hs).
Qed.

(** Collapsing runs of underscores keeps a chain.  While a run is pending,
    the last character written is not the last character read. *)
Lemma chain_sub_underscore_runs (s : string) (run : nat) (read written : option ascii) :
  (run = 0 -> written = read) ->
  chain p read s = true ->
  chain p written (Re.sub_underscore_runs run s) = true.
Proof.
  revert run read written; induction s as [|c s IH]; intros run read written Hrun H;
    cbn [Re.sub_underscore_runs].
  - destruct (flush_run_cases run) as [-> | ->]; [reflexivity|].
    cbn [chain]. now rewrite chain_prev_underscore.
  - cbn [chain] in H. apply andb_true_iff in H. destruct H as [Hc Hs].
    destruct (Ascii.eqb c UNDERSCORE) eqn:Ec.
    + apply (IH (S run) (Some c) written); [discriminate | exact Hs].
    + destruct run as [|run].
      * rewrite (Hrun eq_refl). cbn [Re.flush_run Nat.leb String.append chain].
        rewrite Hc. apply (IH 0 (Some c) (Some c)); [reflexivity | exact Hs].
      * replace (Re.flush_run (S run)) with "_" by now destruct run.
        cbn [String.append chain].
        rewrite chain_prev_underscore.
        rewrite p_underscore; [|left; reflexivity].
        apply (IH 0 (Some c) (Some c)); [reflexivity | exact Hs].
Qed.

End Chains.

Lemma chain_prefix (p : ascii -> ascii -> bool) (prev : option ascii) (a b : string) :
  chain p prev (a ++ b) = true -> chain p prev a = true.
Proof.
  revert prev; induction a as [|c a IH]; intros prev H; [reflexivity|].
  cbn [String.append chain] in H |- *. apply andb_true_iff in H.
  destruct H as [Hc Ha]. now rewrite Hc, (IH _ Ha).
Qed.

Lemma chain_lower (p : ascii -> ascii -> bool) (prev : option ascii) (s : string) :
  (forall a b, p (to_lower a) (to_lower b) = p a b) ->
  chain p (option_map to_lower prev) (lower s) = chain p prev s.
Proof.
  intros Hp. unfold lower. revert prev; induction s as [|c s IH]; intros prev;
    [reflexivity|].
  cbn [map_chars chain]. rewrite <- (IH (Some c)). cbn [option_map].
  destruct prev as [a|]; cbn [option_map]; [now rewrite Hp | reflexivity].
Qed.

Lemma chain_both (p q : ascii -> ascii -> bool) (prev : option ascii) (s : string) :
  chain p prev s = true -> chain q prev s = true ->
  chain (fun a b => p a b && q a b) prev s = true.
Proof.
  revert prev; induction s as [|c s IH]; intros prev Hp Hq; [reflexivity|].
  cbn [chain] in *. apply andb_true_iff in Hp, Hq.
  destruct Hp as [Hp1 Hp2], Hq as [Hq1 Hq2]. rewrite (IH _ Hp2 Hq2).
  destruct prev; [now rewrite Hp1, Hq1 | reflexivity].
Qed.

Lemma chain_weaken (p q : ascii -> ascii -> bool) (prev : option ascii) (s : string) :
  (forall a b, p a b = true -> q a b = true) ->
  chain p prev s = true -> chain q prev s = true.
Proof.
  intros Hpq. revert prev; induction s as [|c s IH]; intros prev H; [reflexivity|].
  cbn [chain] in *. apply andb_true_iff in H. destruct H as [H1 H2].
  rewrite (IH _ H2). destruct prev; [now rewrite (Hpq _ _ H1) | reflexivity].
Qed.

Lemma fenced_where_underscore (lookbehind lookahead : option ascii -> bool) (a b : ascii) :
  is_underscore a = true \/ is_underscore b = true ->
  fenced_where lookbehind lookahead a b = true.
Proof.
  unfold fenced_where. intros [-> | ->]; now rewrite ?orb_true_r.
Qed.

Lemma fenced_underscore (a b : ascii) :
  is_underscore a = true \/ is_underscore b = true -> fenced a b = true.
Proof. unfold fenced. intros [-> | ->]; now rewrite ?orb_true_r. Qed.

(** After a substitution, its pattern matches only next to an underscore. *)
Lemma sub_at_positions_fenced (lookbehind lookahead : option ascii -> bool)
    (prev : option ascii) (s : string) :
  chain (fenced_where lookbehind lookahead) prev
    (Re.sub_at_positions lookbehind lookahead "_" prev s) = true.
Proof.
  revert prev; induction s as [|c s IH]; intros prev; cbn [Re.sub_at_positions].
  - destruct (lookbehind prev && lookahead None); [|reflexivity].
    cbn [chain]. rewrite andb_true_r.
    apply (chain_prev_underscore _ (fenced_where_underscore lookbehind lookahead)).
  - destruct (lookbehind prev && lookahead (Some c)) eqn:E; cbn [String.append chain].
    + rewrite IH, andb_true_r.
      rewrite (chain_prev_underscore _ (fenced_where_underscore lookbehind lookahead)).
      apply fenced_where_underscore. now left.
    + rewrite IH, andb_true_r. destruct prev as [a|]; [|reflexivity].
      unfold fenced_where. now rewrite E.
Qed.

Lemma fenced_both_ways (a b : ascii) :
  fenced_where Re.a_non_digit Re.a_digit a b = true ->
  fenced_where Re.a_digit Re.a_non_digit a b = true ->
  fenced a b = true.
Proof.
  unfold fenced_where, fenced, Re.a_non_digit, Re.a_digit.
  destruct (is_digit a), (is_digit b), (is_underscore a), (is_underscore b);
    cbn; congruence.
Qed.

Lemma fenced_one_way (a b : ascii) :
  fenced a b = true ->
  fenced_where Re.a_non_digit Re.a_digit a b = true
  /\ fenced_where Re.a_digit Re.a_non_digit a b = true.
Proof.
  unfold fenced_where, fenced, Re.a_non_digit, Re.a_digit.
  destruct (is_digit a), (is_digit b), (is_underscore a), (is_underscore b);
    cbn; intuition congruence.
Qed.

Lemma fenced_lower (a b : ascii) : fenced (to_lower a) (to_lower b) = fenced a b.
Proof. unfold fenced. now rewrite !to_lower_digit, !to_lower_underscore. Qed.

Lemma no_double_underscore_chain (s : string) :
  no_double_underscore s = chain not_both_underscores None s.
Proof.
  destruct s as [|a s]; [reflexivity|]. cbn [chain andb].
  revert a; induction s as [|b s IH]; intros a; [reflexivity|].
  rewrite no_double_underscore_step, IH. reflexivity.
Qed.

Lemma not_both_underscores_lower (a b : ascii) :
  not_both_underscores (to_lower a) (to_lower b) = not_both_underscores a b.
Proof.
  pose proof (to_lower_underscore a) as Ha. pose proof (to_lower_underscore b) as Hb.
  unfold is_underscore in Ha, Hb. unfold not_both_underscores. now rewrite Ha, Hb.
Qed.

(** Every result of the normalizer has its digits fenced off. *)
Lemma camel_to_snake_case_fenced (s : string) :
  digits_fenced (camel_to_snake_case s) = true.
Proof.
  unfold digits_fenced, camel_to_snake_case.
  set (s1 := Re.sub_at_positions Re.not_at_start Re.ahead_upper "_" None s).
  set (s2 := Re.sub_at_positions Re.a_non_digit Re.a_digit "_" None s1).
  set (s3 := Re.sub_at_positions Re.a_digit Re.a_non_digit "_" None s2).
  assert (H3 : chain fenced None s3 = true).
  { apply (chain_weaken (fun a b => fenced_where Re.a_non_digit Re.a_digit a b
                                    && fenced_where Re.a_digit Re.a_non_digit a b)).
    - intros a b H. apply andb_true_iff in H. now apply fenced_both_ways.
    - apply chain_both.
      + apply chain_sub_at_positions; [apply fenced_where_underscore|].
        apply sub_at_positions_fenced.
      + apply sub_at_positions_fenced. }
  destruct (rstrip_underscore_prefix (Re.sub_underscore_runs 0 (lower s3)))
    as [dropped Hd].
  apply (chain_prefix _ _ _ dropped). rewrite <- Hd.
  apply (chain_sub_underscore_runs _ fenced_underscore _ 0 None None); [reflexivity|].
  change None with (option_map to_lower None).
  now rewrite (chain_lower _ _ _ fenced_lower).
Qed.

Lemma no_double_underscore_prefix (a b : string) :
  no_double_underscore (a ++ b) = true -> no_double_underscore a = true.
Proof. rewrite !no_double_underscore_chain. apply chain_prefix. Qed.

Lemma camel_to_snake_case_no_double (s : string) :
  no_double_underscore (camel_to_snake_case s) = true.
Proof.
  unfold camel_to_snake_case.
  match goal with
  | |- no_double_underscore (rstrip_underscore ?x) = true =>
      destruct (rstrip_underscore_prefix x) as [dropped Hd];
      apply (no_double_underscore_prefix _ dropped); rewrite <- Hd
  end.
  apply sub_underscore_runs_no_double.
Qed.

Lemma camel_to_snake_case_no_upper (s : string) :
  all_chars (fun c => negb (is_upper c)) (camel_to_snake_case s) = true.
Proof.
  unfold all_chars. apply forallb_forall. intros c Hc.
  unfold camel_to_snake_case in Hc.
  apply rstrip_underscore_chars, sub_underscore_runs_chars in Hc.
  destruct Hc as [-> | Hc]; [reflexivity | now rewrite (lower_no_upper _ _ Hc)].
Qed.

(** Every result of the normalizer is in normal form. *)
Lemma camel_to_snake_case_normal (s : string) : snake_normal (camel_to_snake_case s).
Proof.
  split; [apply camel_to_snake_case_no_upper|].
  split; [apply camel_to_snake_case_no_double|].
  split; [apply camel_to_snake_case_fenced|].
  apply rstrip_underscore_no_trailing.
Qed.

Lemma all_chars_sub_at_positions (p : ascii -> bool)
    (lookbehind lookahead : option ascii -> bool) (prev : option ascii) (s : string) :
  p "_"%char = true ->
  all_chars p s = true ->
  all_chars p (Re.sub_at_positions lookbehind lookahead "_" prev s) = true.
Proof.
  intros Hp. unfold all_chars.
  revert prev; induction s as [|c s IH]; intros prev H; cbn [Re.sub_at_positions].
  - destruct (lookbehind prev && lookahead None); cbn; now rewrite ?Hp.
  - cbn [list_ascii_of_string forallb] in H. apply andb_true_iff in H.
    destruct H as [Hc Hs]. rewrite chars_append, forallb_app.
    cbn [list_ascii_of_string forallb]. rewrite Hc, (IH _ Hs).
    destruct (lookbehind prev && lookahead (Some c)); cbn; now rewrite ?Hp.
Qed.

(** Without an upper-case letter the first substitution has nothing to do. *)
Lemma sub_before_upper_fixed (prev : option ascii) (s : string) :
  all_chars (fun c => negb (is_upper c)) s = true ->
  Re.sub_at_positions Re.not_at_start Re.ahead_upper "_" prev s = s.
Proof.
  unfold all_chars. revert prev; induction s as [|c s IH]; intros prev H;
    cbn [Re.sub_at_positions Re.ahead_upper].
  - now rewrite andb_false_r.
  - cbn [list_ascii_of_string forallb] in H. apply andb_true_iff in H.
    destruct H as [Hc Hs]. apply negb_true_iff in Hc.
    now rewrite Hc, andb_false_r, (IH _ Hs).
Qed.

Lemma lower_fixed (s : string) :
  all_chars (fun c => negb (is_upper c)) s = true -> lower s = s.
Proof.
  unfold all_chars, lower. induction s as [|c s IH]; intros H; [reflexivity|].
  cbn [list_ascii_of_string forallb] in H. apply andb_true_iff in H.
  destruct H as [Hc Hs]. apply negb_true_iff in Hc.
  cbn [map_chars]. now rewrite (to_lower_fixed _ Hc), (IH Hs).
Qed.

(** A pending run of underscores counts the same whatever its length. *)
Lemma sub_underscore_runs_longer (run : nat) (s : string) :
  Re.sub_underscore_runs (S (S run)) s = Re.sub_underscore_runs (S run) s.
Proof.
  revert run; induction s as [|c s IH]; intros run; cbn [Re.sub_underscore_runs].
  - now destruct run.
  - destruct (Ascii.eqb c UNDERSCORE); [apply IH | now destruct run].
Qed.

(** Underscores put in next to an underscore are taken out again when the
    runs are collapsed. *)
Lemma sub_underscore_runs_absorbs (lookbehind lookahead : option ascii -> bool)
    (s : string) (prev : option ascii) (run : nat) :
  lookbehind None = false ->
  lookahead None = false ->
  (forall a, prev = Some a -> is_underscore a = true -> run <> 0) ->
  chain (fenced_where lookbehind lookahead) prev s = true ->
  Re.sub_underscore_runs run (Re.sub_at_positions lookbehind lookahead "_" prev s)
  = Re.sub_underscore_runs run s.
Proof.
  intros Hbehind Hahead. revert prev run.
  induction s as [|c s IH]; intros prev run Hrun H; cbn [Re.sub_at_positions].
  - now rewrite Hahead, andb_false_r.
  - cbn [chain] in H. apply andb_true_iff in H. destruct H as [Hc Hs].
    destruct (lookbehind prev && lookahead (Some c)) eqn:E; cbn [String.append].
    + destruct prev as [a|]; [|now rewrite Hbehind in E].
      unfold fenced_where in Hc. rewrite E in Hc. cbn [negb orb] in Hc.
      change (Re.sub_underscore_runs run (String "_" ?x))
        with (Re.sub_underscore_runs (S run) x).
      cbn [Re.sub_underscore_runs].
      destruct (Ascii.eqb c UNDERSCORE) eqn:Ec.
      * rewrite IH; [apply sub_underscore_runs_longer | discriminate | exact Hs].
      * unfold is_underscore in Hc at 2. rewrite Ec, orb_false_r in Hc.
        destruct run as [|run]; [now elim (Hrun a eq_refl Hc)|].
        replace (Re.flush_run (S (S run))) with (Re.flush_run (S run))
          by now destruct run.
        rewrite IH; [reflexivity | | exact Hs].
        intros b Hb Hu. injection Hb as <-. unfold is_underscore in Hu.
        now rewrite Ec in Hu.
    + cbn [Re.sub_underscore_runs]. destruct (Ascii.eqb c UNDERSCORE) eqn:Ec.
      * apply IH; [discriminate | exact Hs].
      * rewrite IH; [reflexivity | | exact Hs].
        intros b Hb Hu. injection Hb as <-. unfold is_underscore in Hu.
        now rewrite Ec in Hu.
Qed.

(** Without two underscores in a row there is no run to collapse. *)
Lemma sub_underscore_runs_after (s : string) (a : ascii) :
  chain not_both_underscores (Some a) s = true ->
  Re.sub_underscore_runs (if is_underscore a then 1 else 0) s
  = (if is_underscore a then "_" else "") ++ s.
Proof.
  revert a; induction s as [|c s IH]; intros a H; cbn [Re.sub_underscore_runs].
  - destruct (is_underscore a); reflexivity.
  - cbn [chain] in H. apply andb_true_iff in H. destruct H as [Hc Hs].
    specialize (IH c Hs). unfold is_underscore in IH |- *.
    unfold not_both_underscores in Hc.
    destruct (Ascii.eqb c UNDERSCORE) eqn:Ec.
    + rewrite andb_true_r in Hc. apply negb_true_iff in Hc. rewrite Hc.
      rewrite IH. apply Ascii.eqb_eq in Ec. now subst c.
    + rewrite IH. now destruct (Ascii.eqb a UNDERSCORE).
Qed.

Lemma sub_underscore_runs_fixed (s : string) :
  no_double_underscore s = true -> Re.sub_underscore_runs 0 s = s.
Proof.
  rewrite no_double_underscore_chain. destruct s as [|c s]; [reflexivity|].
  cbn [chain andb]. intros H. pose proof (sub_underscore_runs_after s c H) as Hs.
  cbn [Re.sub_underscore_runs]. unfold is_underscore in Hs.
  destruct (Ascii.eqb c UNDERSCORE) eqn:Ec.
  - rewrite Hs. apply Ascii.eqb_eq in Ec. now subst c.
  - now rewrite Hs.
Qed.

Lemma rstrip_underscore_fixed (s : string) :
  ~ trailing_underscore s -> rstrip_underscore s = s.
Proof.
  induction s as [|c s IH]; intros H; [reflexivity|]. cbn [rstrip_underscore].
  rewrite IH.
  - destruct s as [|b s]; [|reflexivity].
    destruct (Ascii.eqb c UNDERSCORE) eqn:Ec; [|reflexivity].
    elim H. exists "". apply Ascii.eqb_eq in Ec. now subst c.
  - intros [rest Hrest]. apply H. exists (String c rest). now rewrite Hrest.
Qed.

(** The normalizer leaves a string in normal form as it is. *)
Lemma snake_normal_fixed (s : string) :
  snake_normal s -> camel_to_snake_case s = s.
Proof.
  intros [Hupper [Hdouble [Hfenced Htrailing]]]. unfold camel_to_snake_case.
  rewrite (sub_before_upper_fixed None s Hupper).
  rewrite lower_fixed
    by (repeat apply all_chars_sub_at_positions; [reflexivity | reflexivity | exact Hupper]).
  unfold digits_fenced in Hfenced.
  rewrite sub_underscore_runs_absorbs; try reflexivity; [ | discriminate | ].
  - rewrite sub_underscore_runs_absorbs; try reflexivity; [ | discriminate | ].
    + rewrite (sub_underscore_runs_fixed _ Hdouble).
      apply rstrip_underscore_fixed, Htrailing.
    + revert Hfenced. apply chain_weaken. intros a b H. apply (fenced_one_way a b H).
  - apply chain_sub_at_positions; [apply fenced_where_underscore|].
    revert Hfenced. apply chain_weaken. intros a b H. apply (fenced_one_way a b H).
Qed.

(** X11. The normalizer is idempotent: normalizing a normalized name gives
    it back. *)
Theorem camel_to_snake_case_idempotent (camel_str : string) :
  camel_to_snake_case (camel_to_snake_case camel_str) = camel_to_snake_case camel_str.
Proof. apply snake_normal_fixed, camel_to_snake_case_normal. Qed.

(** X12. The strings the normalizer leaves as they are are exactly those
    in normal form: no upper-case letter, no two underscores in a row, every
    digit next to a non-digit only if that is an underscore, and no underscore
    at the end.  Every result of the normalizer is of this form. *)
Theorem camel_to_snake_case_fixed_points (camel_str : string) :
  (camel_to_snake_case camel_str = camel_str <-> snake_normal camel_str)
  /\ snake_normal (camel_to_snake_case camel_str).
Proof.
  split; [split|].
  - intros H. rewrite <- H. apply camel_to_snake_case_normal.
  - apply snake_normal_fixed.
  - apply camel_to_snake_case_normal.
Qed.

Lemma camel_to_snake_case_fixed_points_witness :
  camel_to_snake_case "a_1" = "a_1"
  /\ snake_normal "http_server".
Proof.
  split.
  - apply (proj2 (proj1 (camel_to_snake_case_fixed_points "a_1"))).
    repeat split. intros [[|c [|d [|e [|x rest]]]] H]; discriminate H.
  - apply (proj1 (proj1 (camel_to_snake_case_fixed_points "http_server"))).
    reflexivity.
Defined.

(** ** The include guard *)

Lemma all_chars_append (p : ascii -> bool) (a b : string) :
  all_chars p (a ++ b) = all_chars p a && all_chars p b.
Proof. unfold all_chars. now rewrite chars_append, forallb_app. Qed.

Lemma all_chars_map_chars (p : ascii -> bool) (f : ascii -> ascii) (s : string) :
  all_chars p (map_chars f s) = all_chars (fun c => p (f c)) s.
Proof.
  unfold all_chars. induction s as [|c s IH]; [reflexivity|].
  cbn [map_chars list_ascii_of_string forallb]. now rewrite IH.
Qed.

Lemma all_chars_sub_underscore_runs (p : ascii -> bool) (run : nat) (s : string) :
  p "_"%char = true ->
  all_chars p s = true ->
  all_chars p (Re.sub_underscore_runs run s) = true.
Proof.
  intros Hp Hs. unfold all_chars in *. apply forallb_forall. intros c Hc.
  apply sub_underscore_runs_chars in Hc. destruct Hc as [-> | Hc]; [exact Hp|].
  rewrite forallb_forall in Hs. now apply Hs.
Qed.

Lemma all_chars_rstrip_underscore (p : ascii -> bool) (s : string) :
  all_chars p s = true -> all_chars p (rstrip_underscore s) = true.
Proof.
  intros Hs. unfold all_chars in *. apply forallb_forall. intros c Hc.
  apply rstrip_underscore_chars in Hc. rewrite forallb_forall in Hs. now apply Hs.
Qed.

Lemma to_upper_not_lower (c : ascii) : is_lower (to_upper c) = false.
Proof. destruct c as [[|] [|] [|] [|] [|] [|] [|] [|]]; reflexivity. Qed.

Lemma identifier_char_guard_char (c : ascii) :
  is_identifier_char c = true -> is_guard_char (to_upper (to_lower c)) = true.
Proof.
  destruct c as [[|] [|] [|] [|] [|] [|] [|] [|]]; vm_compute;
    intros H; (reflexivity || discriminate H).
Qed.

(** X13. The include guard of a file pair holds no lower-case letter; when
    the name of the file pair is made of letters, digits and underscores, the
    guard is made of upper-case letters, digits and underscores only. *)
Theorem include_guard_characters (self : CppHeaderAndSource.t) :
  all_chars (fun c => negb (is_lower c)) (CppHeaderAndSource.guard_name self) = true
  /\ (all_chars is_identifier_char (CppHeaderAndSource.name self) = true ->
      all_chars is_guard_char (CppHeaderAndSource.guard_name self) = true).
Proof.
  unfold CppHeaderAndSource.guard_name, upper. split.
  - rewrite all_chars_append, all_chars_map_chars, andb_true_r.
    unfold all_chars. apply forallb_forall. intros c _.
    now rewrite to_upper_not_lower.
  - intros Hname. rewrite all_chars_append, all_chars_map_chars, andb_true_r.
    unfold camel_to_snake_case.
    apply all_chars_rstrip_underscore, all_chars_sub_underscore_runs; [reflexivity|].
    unfold lower. rewrite all_chars_map_chars.
    repeat (apply all_chars_sub_at_positions; [reflexivity|]).
    unfold all_chars in *. rewrite forallb_forall in Hname. apply forallb_forall.
    intros c Hc. exact (identifier_char_guard_char c (Hname c Hc)).
Qed.

Lemma include_guard_characters_witness :
  all_chars is_guard_char
    (CppHeaderAndSource.guard_name (CppHeaderAndSource.init "exampleFile2")) = true.
Proof.
  apply (proj2 (include_guard_characters (CppHeaderAndSource.init "exampleFile2"))).
  reflexivity.
Defined.

(** ** Declarations against definitions *)

(** X14. The parameter list and the qualifiers stand in the declaration of
    every method as one piece, and in its definition too, under either
    placement, as soon as the method has no initializer list or no
    qualifier. *)
Theorem declaration_signature_in_definition (method : CppMethod.t) (class_name : string) :
  occurs_in (signature_tail method) (CppMethod.declaration method)
  /\ (CppMethod.initializer_list method = "" \/ CppMethod.qualifiers method = [] ->
      occurs_in (signature_tail method) (CppMethod.get_definition method class_name)).
Proof.
  split.
  - rewrite declaration_signature_tail.
    exists (CppMethod.return_type method ++ CppMethod.space_after_return_type method
            ++ CppMethod.name method), ";".
    now rewrite !append_assoc.
  - intros H. rewrite (get_definition_as_specified _ _ H).
    unfold definition_as_specified.
    exists (CppMethod.return_type method ++ CppMethod.space_after_return_type method
            ++ (if CppMethod.define_in_header method then CppMethod.name method
                else class_name ++ "::" ++ CppMethod.name method)),
           (initializer_suffix method ++ braced_body method).
    now rewrite ?append_assoc.
Qed.

Lemma declaration_signature_in_definition_witness :
  occurs_in "(int a) const override"
    (CppMethod.get_definition
       (CppMethod.mk "f" "int" "int a" "return a;" "public" "" false ["const"; "override"])
       "C").
Proof.
  apply (proj2 (declaration_signature_in_definition
                  (CppMethod.mk "f" "int" "int a" "return a;" "public" "" false
                     ["const"; "override"]) "C")).
  left. reflexivity.
Defined.
